(** * mayo/task/base.py : the multi-GPU task coordinator [TFTaskBase]

    A shallow embedding of [TFTaskBase]: construction of one graph replica
    per (data, additional) pair of the data source, registration of the
    estimates of replica 0, the lazy [map] generator with its device
    scopes, and the override points that raise [NotImplementedError]. *)

From Stdlib Require Import String List Arith Bool Lia DecimalString.
Import ListNotations.
Open Scope string_scope.
Open Scope list_scope.
Set Warnings "-register-all".

(** ** Python-side primitives *)

(** ['{}'.format(i)] for a non-negative integer. *)
Definition format_nat (n : nat) : string :=
  NilEmpty.string_of_uint (Nat.to_uint n).

(** [needle in haystack] on strings. *)
Definition str_contains (needle haystack : string) : bool :=
  match index 0 needle haystack with
  | Some _ => true
  | None => false
  end.

(** [enumerate(l)], counting from [start]. *)
Fixpoint enumerate_from {A : Type} (start : nat) (l : list A) : list (nat * A) :=
  match l with
  | [] => []
  | x :: l' => (start, x) :: enumerate_from (S start) l'
  end.

Definition enumerate {A : Type} (l : list A) : list (nat * A) :=
  enumerate_from 0 l.

(** [zip(a, b, c)]: stops at the shortest argument. *)
Fixpoint zip3 {A B C : Type} (a : list A) (b : list B) (c : list C)
  : list (A * B * C) :=
  match a, b, c with
  | x :: a', y :: b', z :: c' => (x, y, z) :: zip3 a' b' c'
  | _, _, _ => []
  end.

(** The exceptions this module can surface.  [NotImplementedError] is
    [mayo.error.NotImplementedError]; [IndexError] comes from [inputs[0]] and
    from subscripting a list out of range.  Exceptions of the net builder or
    of unpacking a yielded item, and [StopIteration], which a generator does
    not pass on as it is, are outside the model. *)
Inductive error : Type :=
| NotImplementedError (msg : string)
| IndexError (msg : string).

(** A call that either raises or returns. *)
Definition Exc (A : Type) : Type := (error + A)%type.

(** [l[i]] on a Python list. *)
Definition subscript {A : Type} (l : list A) (i : nat) : Exc A :=
  match nth_error l i with
  | Some x => inr x
  | None => inl (IndexError "list index out of range")
  end.

(** The result of running a piece of the embedding: a value, an exception,
    or the bound on the number of steps was reached before either. *)
Inductive outcome (A : Type) : Type :=
| Returned (a : A)
| Raised (e : error)
| OutOfFuel.
Arguments Returned {A} a.
Arguments Raised {A} e.
Arguments OutOfFuel {A}.

Section Coordinator.

(** Opaque framework objects: tensors and the model specification. *)
Context {Tensor Model : Type}.

(** Python values that flow through the coordinator.  A [VMapping] is an
    instance of [collections.Mapping], kept as an association list in
    [items()] order; every other value is a leaf. *)
Inductive value : Type :=
| VNone
| VStr (s : string)
| VTensor (t : Tensor)
| VMapping (items : list (string * value)).

(** [isinstance(v, collections.Mapping)]. *)
Definition is_Mapping (v : value) : bool :=
  match v with
  | VMapping _ => true
  | _ => false
  end.

(** *** Session, configuration and net builder *)

(** Modelled from the spec: the session classes of [mayo.session] are not
    part of this module; a session has "a run-time type distinguishing test
    sessions from others". *)
Inductive session_kind : Type :=
| TestClass
| OtherClass.

Record SearchPathRun : Type := { run_inputs : list string }.
Record SearchPath : Type := { run : SearchPathRun }.
Record System : Type := { system_num_gpus : nat; search_path : SearchPath }.
Record Config : Type := { system : System; model : Model }.

(** [session.estimator] is a reference to the one shared estimator, whose
    state is the [estimator] component of the [store] below. *)
Record Session : Type := {
  session_type : session_kind;
  session_config : Config;
  session_mode : string
}.

(** [isinstance(session, Test)]. *)
Definition isinstance_Test (session : Session) : bool :=
  match session_type session with
  | TestClass => true
  | OtherClass => false
  end.

(** Modelled from the spec: [mayo.net.tf.TFNet] is not part of this module;
    the net builder, "given (session, model-spec, input-data, reuse-flag),
    returns a replica exposing an outputs() query".  A replica is the
    record of what it was built from. *)
Record TFNet : Type := new_TFNet {
  net_session : Session;
  net_model : Model;
  net_data : value;
  net_reuse : bool
}.

(** What the framework contributes: [net.outputs()], and [str(v)] of an
    object that is not a string. *)
Class Framework : Type := {
  outputs : TFNet -> value;
  repr_object : value -> string
}.

Context {framework : Framework}.

Definition py_str (v : value) : string :=
  match v with
  | VStr s => s
  | VNone => "None"
  | _ => repr_object v
  end.

(** ['{}.{}'.format(root, key)]. *)
Definition format_path (root : value) (key : string) : string :=
  (py_str root ++ "." ++ key)%string.

(** *** The store *)

(** One call [estimator.register(value, path, history=history)], with the
    positional arguments in the order the call passes them. *)
Record registration : Type := {
  reg_value : value;
  reg_path : value;
  reg_history : value
}.

(** Calls into the framework, each with the device and name-scope stacks
    that are active when it is made. *)
Inductive event : Type :=
| LogDebug (msg : string)
| NetBuilt (device scope : list string) (net : TFNet)
| Applied (device scope : list string) (net : TFNet) (prediction truth : value).

Record store : Type := {
  devices : list string;        (* tf.device stack, innermost first *)
  name_scopes : list string;    (* tf.name_scope stack, innermost first *)
  estimator : list registration; (* what the shared estimator received *)
  trace : list event
}.

(** *** A state and exception monad *)

Definition M (A : Type) : Type := store -> store * outcome A.

Definition ret {A : Type} (a : A) : M A := fun s => (s, Returned a).

Definition raise {A : Type} (e : error) : M A := fun s => (s, Raised e).

Definition bind {A B : Type} (m : M A) (k : A -> M B) : M B :=
  fun s =>
    match m s with
    | (s', Returned a) => k a s'
    | (s', Raised e) => (s', Raised e)
    | (s', OutOfFuel) => (s', OutOfFuel)
    end.

Definition lift {A : Type} (r : Exc A) : M A :=
  match r with
  | inr a => ret a
  | inl e => raise e
  end.

Definition modify (f : store -> store) : M unit :=
  fun s => (f s, Returned tt).

Definition gets {A : Type} (f : store -> A) : M A :=
  fun s => (s, Returned (f s)).

Notation "x <- m ;; k" := (bind m (fun x => k))
  (at level 61, m at next level, right associativity).
Notation "m ;;; k" := (bind m (fun _ => k))
  (at level 61, right associativity).

(** [for x in l: body(x)]. *)
Fixpoint for_each {A : Type} (l : list A) (body : A -> M unit) : M unit :=
  match l with
  | [] => ret tt
  | x :: l' => body x ;;; for_each l' body
  end.

Definition record_event (e : event) : M unit :=
  modify (fun s => {| devices := devices s; name_scopes := name_scopes s;
                      estimator := estimator s; trace := trace s ++ [e] |}).

(** [log.debug(msg)]. *)
Definition log_debug (msg : string) : M unit := record_event (LogDebug msg).

(** [self.estimator.register(value, path, history=history)]. *)
Definition estimator_register (v path history : value) : M unit :=
  modify (fun s => {| devices := devices s; name_scopes := name_scopes s;
                      estimator := estimator s ++
                        [{| reg_value := v; reg_path := path;
                            reg_history := history |}];
                      trace := trace s |}).

(** *** Device scoping: [_gpu_context] *)

(** Entering [tf.device('/gpu:{}'.format(gid))] and then
    [tf.name_scope('tower_{}'.format(gid))]. *)
Definition enter_gpu_context (gid : nat) (s : store) : store :=
  {| devices := ("/gpu:" ++ format_nat gid)%string :: devices s;
     name_scopes := ("tower_" ++ format_nat gid)%string :: name_scopes s;
     estimator := estimator s; trace := trace s |}.

(** Leaving both [with] blocks restores the stacks they were entered on. *)
Definition exit_gpu_context (s : store) : store :=
  {| devices := tl (devices s); name_scopes := tl (name_scopes s);
     estimator := estimator s; trace := trace s |}.

(** [with self._gpu_context(gid): body]; the blocks are left on every
    path out of [body], exceptions included. *)
Definition _gpu_context {A : Type} (gid : nat) (body : M A) : M A :=
  fun s =>
    let (s', r) := body (enter_gpu_context gid s) in
    (exit_gpu_context s', r).

(** *** The task object *)

Record Task : Type := {
  is_test : bool;
  session : Session;
  config : Config;
  num_gpus : nat;
  mode : string;
  nets : list TFNet;
  inputs : list value;
  predictions : list value;
  truths : list value;
  names : list value
}.

(** The methods a specialization may override, bound to [self]. *)
Record Methods : Type := {
  transform : Task -> TFNet -> value -> value -> value
              -> Exc (value * value * value);
  generate : Task -> Exc (list (value * value));
  augment : Task -> string -> Exc (list (value * value));
  train : Task -> TFNet -> value -> value -> Exc value;
  eval : Task -> TFNet -> value -> value -> Exc value;
  test : Task -> value -> value -> value -> Exc value
}.

(** The methods of [TFTaskBase] itself. *)
Definition TFTaskBase : Methods := {|
  transform := fun _ net data prediction truth => inr (data, prediction, truth);
  generate := fun _ =>
    inl (NotImplementedError
      "Please implement .generate() which produces training/validation samples and the expected truth results.");
  augment := fun _ serialized =>
    inl (NotImplementedError
      "Please implement .augment() which augments input tensors.");
  train := fun _ net prediction truth =>
    inl (NotImplementedError
      "Please implement .train() which returns the loss tensor.");
  eval := fun _ net prediction truth =>
    inl (NotImplementedError
      "Please implement .eval() which returns the evaluation metrics.");
  test := fun _ name inputs prediction =>
    inl (NotImplementedError
      "Please implement .test() which produces human-readable output for a given input.")
|}.


(** *** Estimate registration: [_register_estimates] *)

(** [mapping.items()]. *)
Definition items (mapping : value) : list (string * value) :=
  match mapping with
  | VMapping kvs => kvs
  | _ => []
  end.

(** The inner function [register(root, mapping)].  Its recursive call does
    not descend into a part of [mapping], so the recursion is bounded by
    [depth], the number of frames it may still use. *)
Fixpoint register (depth : nat) (self : Task) (root mapping : value) : M unit :=
  match depth with
  | 0 => fun s => (s, OutOfFuel)
  | S depth' =>
      let history :=
        if String.eqb (mode self) "validate" then VStr "infinite" else VNone in
      if negb (is_Mapping mapping) then
        estimator_register mapping root history
      else
        for_each (items mapping) (fun '(key, value) =>
          register depth' self value (VStr (format_path root key)))
  end.

(** CPython's default [sys.getrecursionlimit()]. *)
Definition recursion_limit : nat := 1000.

Definition _register_estimates (self : Task) (prediction truth : value) : M unit :=
  register recursion_limit self (VStr "prediction") prediction ;;;
  register recursion_limit self (VStr "truth") truth.

(** *** Replica construction: [_instantiate_nets] *)

(** [bool(l)] of a list. *)
Definition bool_of_list {A : Type} (l : list A) : bool :=
  match l with
  | [] => false
  | _ :: _ => true
  end.

(** [TFNet(session, model, data, reuse)], built under the ambient device
    and name scope.  The builder is taken to return: a builder that raises is
    outside the model. *)
Definition TFNet__init__ (session : Session) (model : Model) (data : value)
  (reuse : bool) : M TFNet :=
  let net := new_TFNet session model data reuse in
  s <- gets (fun s => s) ;;
  record_event (NetBuilt (devices s) (name_scopes s) net) ;;;
  ret net.

(** The five lists local to [_instantiate_nets]. *)
Record locals : Type := {
  l_nets : list TFNet;
  l_inputs : list value;
  l_predictions : list value;
  l_truths : list value;
  l_names : list value
}.

Definition no_replicas : locals :=
  {| l_nets := []; l_inputs := []; l_predictions := []; l_truths := [];
     l_names := [] |}.

(** One iteration of [for i, (data, additional) in enumerate(iterer)]. *)
Definition loop_body (methods : Methods) (self : Task) (i : nat)
  (data additional : value) (l : locals) : M locals :=
  let '(name, truth) :=
    if is_test self then (additional, VNone) else (VNone, additional) in
  log_debug ("Instantiating graph for GPU #" ++ format_nat i ++ "...")%string ;;;
  net <- _gpu_context i
           (TFNet__init__ (session self) (model (config self)) data
              (bool_of_list (l_nets l))) ;;
  let nets1 := l_nets l ++ [net] in
  let prediction := outputs net in
  transformed <- lift (transform methods self net data prediction truth) ;;
  let '(data', prediction', truth') := transformed in
  (if (i =? 0)%nat then _register_estimates self prediction' truth' else ret tt) ;;;
  ret {| l_nets := nets1;
         l_inputs := l_inputs l ++ [data'];
         l_predictions := l_predictions l ++ [prediction'];
         l_truths := l_truths l ++ [truth'];
         l_names := l_names l ++ [name] |}.

Fixpoint _instantiate_nets_loop (methods : Methods) (self : Task)
  (iterer : list (nat * (value * value))) (l : locals) : M locals :=
  match iterer with
  | [] => ret l
  | (i, (data, additional)) :: iterer' =>
      l' <- loop_body methods self i data additional l ;;
      _instantiate_nets_loop methods self iterer' l'
  end.

(** The data source: [self.augment(folder)] in a test session, else
    [self.generate()].  The call either raises or gives an iterator, which is
    modelled by the finite list of the pairs it yields: this is every run in
    which the loop comes to its end.  An iterator that raises after it has
    yielded, yields something other than a pair, or never stops, is outside
    the model. *)
Definition data_source (methods : Methods) (self : Task)
  : Exc (list (value * value)) :=
  if is_test self then
    match subscript (run_inputs (run (search_path (system (config self))))) 0 with
    | inr folder => augment methods self folder
    | inl e => inl e
    end
  else
    generate methods self.

(** [_instantiate_nets]: the loop, then the five assignments to [self]. *)
Definition _instantiate_nets (methods : Methods) (self : Task) : M Task :=
  iterer <- lift (data_source methods self) ;;
  l <- _instantiate_nets_loop methods self (enumerate iterer) no_replicas ;;
  ret {| is_test := is_test self; session := session self;
         config := config self; num_gpus := num_gpus self; mode := mode self;
         nets := l_nets l; inputs := l_inputs l;
         predictions := l_predictions l; truths := l_truths l;
         names := l_names l |}.

(** [self] as [__init__] has set it up when it calls [_instantiate_nets]:
    the five lists are not assigned yet. *)
Definition new_self (session0 : Session) : Task :=
  {| is_test := isinstance_Test session0;
     session := session0;
     config := session_config session0;
     num_gpus := system_num_gpus (system (session_config session0));
     mode := session_mode session0;
     nets := []; inputs := []; predictions := []; truths := [];
     names := [] |}.

(** [TFTaskBase.__init__(self, session)]. *)
Definition __init__ (methods : Methods) (session0 : Session) : M Task :=
  _instantiate_nets methods (new_self session0).

(** *** The lazy [map] and its eager consumers *)

(** The generator object [self.map(func)]: the replicas it has still to
    visit, and whether it is suspended at its [yield], which is inside the
    [with self._gpu_context(i)] block. *)
Record map_generator : Type := {
  gen_func : TFNet -> value -> value -> Exc value;
  gen_pending : list (nat * (TFNet * value * value));
  gen_suspended : bool
}.

(** Calling [self.map(func)] runs nothing; it only creates the generator. *)
Definition map (self : Task) (func : TFNet -> value -> value -> Exc value)
  : map_generator :=
  {| gen_func := func;
     gen_pending := enumerate (zip3 (nets self) (predictions self) (truths self));
     gen_suspended := false |}.

(** [next(g)]: resume after the [yield] (leaving the device scope that was
    open), then either finish ([None], for [StopIteration]) or enter the
    scope of the next replica, apply [func] there and suspend again.  An
    exception of [func] leaves the scope on its way out. *)
Definition py_next (g : map_generator) : M (option value * map_generator) :=
  fun s =>
    let s0 := if gen_suspended g then exit_gpu_context s else s in
    match gen_pending g with
    | [] =>
        (s0, Returned (None, {| gen_func := gen_func g; gen_pending := [];
                                gen_suspended := false |}))
    | (i, (net, prediction, truth)) :: pending' =>
        let s1 := enter_gpu_context i s0 in
        let s2 := fst (record_event
                         (Applied (devices s1) (name_scopes s1) net prediction truth)
                         s1) in
        match gen_func g net prediction truth with
        | inr v =>
            (s2, Returned (Some v, {| gen_func := gen_func g;
                                      gen_pending := pending';
                                      gen_suspended := true |}))
        | inl e => (exit_gpu_context s2, Raised e)
        end
    end.

(** [list(g)]: call [next] until [StopIteration], at most [fuel] times. *)
Fixpoint py_list_loop (fuel : nat) (g : map_generator) : M (list value) :=
  match fuel with
  | 0 => fun s => (s, OutOfFuel)
  | S fuel' =>
      r <- py_next g ;;
      match r with
      | (None, _) => ret []
      | (Some v, g') => vs <- py_list_loop fuel' g' ;; ret (v :: vs)
      end
  end.

(** A generator with [n] replicas pending stops at its [n + 1]-th [next]. *)
Definition py_list (g : map_generator) : M (list value) :=
  py_list_loop (S (length (gen_pending g))) g.

Definition map_train (methods : Methods) (self : Task) : M (list value) :=
  py_list (map self (train methods self)).

Definition map_eval (methods : Methods) (self : Task) : M (list value) :=
  py_list (map self (eval methods self)).

(** *** Reference definitions the theorems compare the code with *)

(** The [history] argument the registration routine computes. *)
Definition history_of (self : Task) : value :=
  if String.eqb (mode self) "validate" then VStr "infinite" else VNone.

(** The store after the estimator has received [regs]. *)
Definition with_registrations (regs : list registration) (s : store) : store :=
  {| devices := devices s; name_scopes := name_scopes s;
     estimator := estimator s ++ regs; trace := trace s |}.

(** The store after the framework has recorded [evs]. *)
Definition with_events (evs : list event) (s : store) : store :=
  {| devices := devices s; name_scopes := name_scopes s;
     estimator := estimator s; trace := trace s ++ evs |}.

(** The calls [register(root, mapping)] makes to the estimator, in closed
    form: a leaf is passed as [(mapping, root)]; under a mapping each item
    is passed as [('root.key', value)] and is not descended into. *)
Definition registered (self : Task) (root mapping : value) : list registration :=
  if is_Mapping mapping then
    List.map (fun '(key, v) =>
                {| reg_value := VStr (format_path root key); reg_path := v;
                   reg_history := history_of self |})
             (items mapping)
  else
    [{| reg_value := mapping; reg_path := root; reg_history := history_of self |}].

(** [func(nets[i], predictions[i], truths[i])], the arguments evaluated
    from left to right. *)
Definition apply_at (self : Task) (func : TFNet -> value -> value -> Exc value)
  (i : nat) : Exc value :=
  match subscript (nets self) i with
  | inl e => inl e
  | inr net =>
      match subscript (predictions self) i with
      | inl e => inl e
      | inr prediction =>
          match subscript (truths self) i with
          | inl e => inl e
          | inr truth => func net prediction truth
          end
      end
  end.

(** The list comprehension [[f(i) for i in indices]]: the elements in
    order, or the first exception. *)
Fixpoint comprehension {A : Type} (f : nat -> Exc A) (indices : list nat)
  : Exc (list A) :=
  match indices with
  | [] => inr []
  | i :: indices' =>
      match f i with
      | inl e => inl e
      | inr v =>
          match comprehension f indices' with
          | inl e => inl e
          | inr vs => inr (v :: vs)
          end
      end
  end.

(** Spec: [[train(nets[i], predictions[i], truths[i]) for i in range(N)]]. *)
Definition map_train_spec (methods : Methods) (self : Task) (N : nat)
  : Exc (list value) :=
  comprehension (apply_at self (train methods self)) (seq 0 N).

(** Spec: [[eval(nets[i], predictions[i], truths[i]) for i in range(N)]]. *)
Definition map_eval_spec (methods : Methods) (self : Task) (N : nat)
  : Exc (list value) :=
  comprehension (apply_at self (eval methods self)) (seq 0 N).

(** An [Exc] result as the outcome of a run. *)
Definition outcome_of {A : Type} (r : Exc A) : outcome A :=
  match r with
  | inr a => Returned a
  | inl e => Raised e
  end.

(** The record the framework keeps of [func] applied to replica [i] inside
    [_gpu_context(i)], entered on the stacks of [s]. *)
Definition applied_in_scope (self : Task) (s : store) (i : nat) : list event :=
  match nth_error (nets self) i, nth_error (predictions self) i,
        nth_error (truths self) i with
  | Some net, Some prediction, Some truth =>
      [Applied (("/gpu:" ++ format_nat i)%string :: devices s)
               (("tower_" ++ format_nat i)%string :: name_scopes s)
               net prediction truth]
  | _, _, _ => []
  end.

(** [(name, truth)] as the loop splits [additional]. *)
Definition split_name (self : Task) (additional : value) : value :=
  if is_test self then additional else VNone.

Definition split_truth (self : Task) (additional : value) : value :=
  if is_test self then VNone else additional.

(** The replica iteration [i] builds, and what the framework records. *)
Definition built_net (self : Task) (data : value) (l : locals) : TFNet :=
  new_TFNet (session self) (model (config self)) data (bool_of_list (l_nets l)).

Definition construction_events (self : Task) (i : nat) (data : value)
  (l : locals) (s : store) : list event :=
  [LogDebug ("Instantiating graph for GPU #" ++ format_nat i ++ "...")%string;
   NetBuilt (("/gpu:" ++ format_nat i)%string :: devices s)
            (("tower_" ++ format_nat i)%string :: name_scopes s)
            (built_net self data l)].

(** Index [j] of the five sequences holds one and the same replica: the
    net built from [data] at iteration [j], and what [transform] made of its
    input, its output and the truth split off [additional]. *)
Definition replica_at (methods : Methods) (self : Task) (l : locals) (j : nat)
  (data additional : value) : Prop :=
  exists net data' prediction' truth',
    net = new_TFNet (session self) (model (config self)) data (negb (j =? 0)%nat)
    /\ transform methods self net data (outputs net)
         (split_truth self additional) = inr (data', prediction', truth')
    /\ nth_error (l_nets l) j = Some net
    /\ nth_error (l_inputs l) j = Some data'
    /\ nth_error (l_predictions l) j = Some prediction'
    /\ nth_error (l_truths l) j = Some truth'
    /\ nth_error (l_names l) j = Some (split_name self additional).

(** The five local lists all have length [k]. *)
Definition aligned (l : locals) (k : nat) : Prop :=
  length (l_nets l) = k /\ length (l_inputs l) = k
  /\ length (l_predictions l) = k /\ length (l_truths l) = k
  /\ length (l_names l) = k.

(** Every list of [l'] starts with the corresponding list of [l]. *)
Definition extends (l l' : locals) : Prop :=
  (exists x, l_nets l' = l_nets l ++ x)
  /\ (exists x, l_inputs l' = l_inputs l ++ x)
  /\ (exists x, l_predictions l' = l_predictions l ++ x)
  /\ (exists x, l_truths l' = l_truths l ++ x)
  /\ (exists x, l_names l' = l_names l ++ x).

(** The five sequences of a task, as the loop left them. *)
Definition locals_of (self : Task) : locals :=
  {| l_nets := nets self; l_inputs := inputs self;
     l_predictions := predictions self; l_truths := truths self;
     l_names := names self |}.

(** *** Reference definitions for the rest of the module *)

(** How many elements of [indices] the comprehension [[f(i) for i in
    indices]] evaluates: all of them, or those up to and including the first
    that raises. *)
Fixpoint calls_made {A : Type} (f : nat -> Exc A) (indices : list nat) : nat :=
  match indices with
  | [] => 0
  | i :: indices' =>
      match f i with
      | inl _ => 1
      | inr _ => S (calls_made f indices')
      end
  end.

(** What the framework records while the replicas of [iterer] are built on
    the stacks of [s]: for each index the debug line, then the net built
    inside the device scope of that index. *)
Definition construction_trace (self : Task) (s : store)
  (iterer : list (nat * (value * value))) : list event :=
  flat_map (fun '(i, (data, _)) =>
              [LogDebug ("Instantiating graph for GPU #" ++ format_nat i
                         ++ "...")%string;
               NetBuilt (("/gpu:" ++ format_nat i)%string :: devices s)
                        (("tower_" ++ format_nat i)%string :: name_scopes s)
                        (new_TFNet (session self) (model (config self)) data
                           (negb (i =? 0)%nat))])
           iterer.

(** The number of estimator calls [register(root, mapping)] makes. *)
Definition registrations_count (mapping : value) : nat :=
  if is_Mapping mapping then length (items mapping) else 1.

End Coordinator.

(** ** A concrete specialization, used to run the embedding *)

Module Demo.

(** Tensors and the model specification are named by strings here. *)
#[export] Instance framework : @Framework string string := {|
  outputs := fun net => VMapping [("class", net_data net)];
  repr_object := fun _ => "<object>"
|}.

Definition demo_config (gpus : nat) : @Config string :=
  {| system := {| system_num_gpus := gpus;
                  search_path := {| run := {| run_inputs := ["inputs/"] |} |} |};
     model := "lenet5" |}.

Definition demo_session (kind : session_kind) (gpus : nat) (mode0 : string)
  : @Session string :=
  {| session_type := kind; session_config := demo_config gpus;
     session_mode := mode0 |}.

Definition empty_store : @store string string :=
  {| devices := []; name_scopes := []; estimator := []; trace := [] |}.

(** A specialization whose data source yields two pairs, whatever the
    configured device count, and which implements [train] but not [eval]. *)
Definition two_pairs : list (@value string * @value string) :=
  [(VTensor "d0", VTensor "t0"); (VTensor "d1", VTensor "t1")].

Definition Classify : @Methods string string := {|
  transform := transform TFTaskBase;
  generate := fun _ => inr two_pairs;
  augment := fun _ _ => inr two_pairs;
  train := fun _ net prediction truth => inr truth;
  eval := eval TFTaskBase;
  test := test TFTaskBase
|}.

(** The task [Classify] builds in a training session. *)
Definition demo_net (data : string) (reuse : bool) : @TFNet string string :=
  new_TFNet (demo_session OtherClass 2 "train") "lenet5" (VTensor data) reuse.

Definition demo_task : @Task string string :=
  {| is_test := false; session := demo_session OtherClass 2 "train";
     config := demo_config 2; num_gpus := 2; mode := "train";
     nets := [demo_net "d0" false; demo_net "d1" true];
     inputs := [VTensor "d0"; VTensor "d1"];
     predictions := [VMapping [("class", VTensor "d0")];
                     VMapping [("class", VTensor "d1")]];
     truths := [VTensor "t0"; VTensor "t1"];
     names := [VNone; VNone] |}.

(** A training session configured for two devices, and the store that
    constructing [Classify] in it leaves behind. *)
Definition train_session : @Session string := demo_session OtherClass 2 "train".

Definition built_store : @store string string :=
  Eval vm_compute in fst (__init__ Classify train_session empty_store).

(** A training session configured for a single device. *)
Definition single_gpu_session : @Session string :=
  demo_session OtherClass 1 "train".

(** A specialization whose data source yields nothing. *)
Definition Idle : @Methods string string := {|
  transform := transform TFTaskBase;
  generate := fun _ => inr [];
  augment := fun _ _ => inr [];
  train := train TFTaskBase;
  eval := eval TFTaskBase;
  test := test TFTaskBase
|}.

(** A test session, and one whose configuration lists no input folder. *)
Definition test_session : @Session string := demo_session TestClass 2 "test".

Definition no_input_session : @Session string :=
  {| session_type := TestClass;
     session_config :=
       {| system := {| system_num_gpus := 1;
                       search_path := {| run := {| run_inputs := [] |} |} |};
          model := "lenet5" |};
     session_mode := "test" |}.

(** [demo_task] after [truths] has been cut to one entry from outside. *)
Definition ragged_task : @Task string string :=
  {| is_test := false; session := train_session;
     config := demo_config 2; num_gpus := 2; mode := "train";
     nets := nets demo_task; inputs := inputs demo_task;
     predictions := predictions demo_task;
     truths := [VTensor "t0"];
     names := names demo_task |}.

(** A per-replica function that returns on replica 0 and raises on every
    replica built with the reuse flag. *)
Definition fails_on_reuse (net : @TFNet string string)
  (prediction truth : @value string) : Exc (@value string) :=
  if net_reuse net then inl (IndexError "no loss for a secondary replica")
  else inr truth.

(** What constructing [Classify] in the test session gives. *)
Definition tested_store : @store string string :=
  Eval vm_compute in fst (__init__ Classify test_session empty_store).

Definition tested_task : @Task string string :=
  Eval vm_compute in
    match snd (__init__ Classify test_session empty_store) with
    | Returned task => task
    | _ => new_self test_session
    end.

End Demo.


(** ** Properties *)

Section Properties.

Context {Tensor Model : Type} {framework : @Framework Tensor Model}.

Local Abbreviation value := (@value Tensor).
Local Abbreviation Session := (@Session Model).
Local Abbreviation TFNet := (@TFNet Tensor Model).
Local Abbreviation registration := (@registration Tensor).
Local Abbreviation event := (@event Tensor Model).
Local Abbreviation store := (@store Tensor Model).
Local Abbreviation Task := (@Task Tensor Model).
Local Abbreviation Methods := (@Methods Tensor Model).
Local Abbreviation locals := (@locals Tensor Model).
Local Abbreviation map_generator := (@map_generator Tensor Model).
Local Abbreviation TFTaskBase := (@TFTaskBase Tensor Model).
Local Abbreviation new_self := (@new_self Tensor Model).

(** *** The monad and the store *)

Lemma with_registrations_nil (s : store) : with_registrations [] s = s.
Proof.
  destruct s; unfold with_registrations; simpl.
  now rewrite app_nil_r.
Qed.

Lemma with_registrations_app (a b : list registration) (s : store) :
  with_registrations b (with_registrations a s) = with_registrations (a ++ b) s.
Proof.
  unfold with_registrations; simpl. now rewrite app_assoc.
Qed.

Lemma with_events_nil (s : store) : with_events [] s = s.
Proof.
  destruct s; unfold with_events; simpl.
  now rewrite app_nil_r.
Qed.

Lemma with_events_app (a b : list event) (s : store) :
  with_events b (with_events a s) = with_events (a ++ b) s.
Proof.
  unfold with_events; simpl. now rewrite app_assoc.
Qed.

(** *** [register]: termination and closed form *)

Lemma register_leaf (d : nat) (self : Task) (root mapping : value) (s : store) :
  is_Mapping mapping = false ->
  register (S d) self root mapping s
  = (with_registrations (registered self root mapping) s, Returned tt).
Proof.
  intros Hleaf. unfold registered. simpl. rewrite Hleaf. reflexivity.
Qed.

Lemma register_items (d : nat) (self : Task) (root : value)
  (kvs : list (string * value)) (s : store) :
  for_each kvs (fun '(key, v) =>
    register (S d) self v (VStr (format_path root key))) s
  = (with_registrations (registered self root (VMapping kvs)) s, Returned tt).
Proof.
  revert s. induction kvs as [|[key v] kvs IH]; intros s.
  - simpl. unfold ret, registered. simpl. now rewrite with_registrations_nil.
  - cbn [for_each]. unfold bind at 1.
    rewrite register_leaf by reflexivity.
    rewrite IH, with_registrations_app. reflexivity.
Qed.

(** Two frames are enough for every argument, and the result is the closed
    form: the bound on the depth is never what stops [register]. *)
Lemma register_closed_form (d : nat) (self : Task) (root mapping : value)
  (s : store) :
  register (S (S d)) self root mapping s
  = (with_registrations (registered self root mapping) s, Returned tt).
Proof.
  destruct (is_Mapping mapping) eqn:Hm.
  - destruct mapping; try discriminate.
    cbn [register is_Mapping negb items]. apply (register_items d).
  - now apply register_leaf.
Qed.

Lemma register_estimates_closed_form (self : Task) (prediction truth : value)
  (s : store) :
  _register_estimates self prediction truth s
  = (with_registrations (registered self (VStr "prediction") prediction
                         ++ registered self (VStr "truth") truth) s,
     Returned tt).
Proof.
  unfold _register_estimates, recursion_limit, bind.
  change 1000 with (S (S 998)).
  rewrite !register_closed_form, with_registrations_app. reflexivity.
Qed.

(** *** One iteration of the construction loop *)

Lemma loop_body_eq (methods : Methods) (self : Task) (i : nat)
  (data additional : value) (l : locals) (s : store) :
  loop_body methods self i data additional l s
  = let net := built_net self data l in
    let s1 := with_events (construction_events self i data l s) s in
    match transform methods self net data (outputs net)
            (split_truth self additional) with
    | inl e => (s1, Raised e)
    | inr (data', prediction', truth') =>
        (with_registrations
           (if (i =? 0)%nat
            then registered self (VStr "prediction") prediction'
                 ++ registered self (VStr "truth") truth'
            else []) s1,
         Returned {| l_nets := l_nets l ++ [net];
                     l_inputs := l_inputs l ++ [data'];
                     l_predictions := l_predictions l ++ [prediction'];
                     l_truths := l_truths l ++ [truth'];
                     l_names := l_names l ++ [split_name self additional] |})
    end.
Proof.
  unfold loop_body, split_truth, split_name, built_net, construction_events.
  destruct (is_test self);
    cbv [bind log_debug record_event modify _gpu_context TFNet__init__ gets ret
         enter_gpu_context exit_gpu_context lift raise with_events];
    cbn [devices name_scopes estimator trace tl fst snd];
    rewrite <- !app_assoc; cbn [app];
    match goal with
    | |- context [transform ?m ?a ?b ?c ?d ?e] =>
        destruct (transform m a b c d e) as [err|[[data' prediction'] truth']]
    end; try reflexivity;
    destruct (i =? 0)%nat;
    try rewrite register_estimates_closed_form;
    cbv [ret]; try rewrite with_registrations_nil; reflexivity.
Qed.

Lemma nth_error_prefix {A : Type} (a x : list A) (j : nat) (v : A) :
  nth_error a j = Some v -> nth_error (a ++ x) j = Some v.
Proof.
  intros H. rewrite nth_error_app1; [exact H|].
  apply nth_error_Some. congruence.
Qed.

Lemma extends_refl (l : locals) : extends l l.
Proof.
  unfold extends; repeat split; exists []; now rewrite app_nil_r.
Qed.

Lemma extends_trans (a b c : locals) : extends a b -> extends b c -> extends a c.
Proof.
  unfold extends.
  intros ([x1 E1] & [x2 E2] & [x3 E3] & [x4 E4] & [x5 E5])
         ([y1 F1] & [y2 F2] & [y3 F3] & [y4 F4] & [y5 F5]).
  rewrite F1, F2, F3, F4, F5, E1, E2, E3, E4, E5, <- !app_assoc.
  repeat split; eexists; reflexivity.
Qed.

Lemma replica_at_extends (methods : Methods) (self : Task) (l l' : locals)
  (j : nat) (data additional : value) :
  extends l l' ->
  replica_at methods self l j data additional ->
  replica_at methods self l' j data additional.
Proof.
  intros ([x1 E1] & [x2 E2] & [x3 E3] & [x4 E4] & [x5 E5])
         (net & d' & p' & t' & Hnet & Htr & H1 & H2 & H3 & H4 & H5).
  exists net, d', p', t'.
  rewrite E1, E2, E3, E4, E5.
  repeat split; auto using nth_error_prefix.
Qed.

Lemma nth_error_snoc {A : Type} (a : list A) (v : A) :
  nth_error (a ++ [v]) (length a) = Some v.
Proof.
  rewrite nth_error_app2 by lia. now rewrite Nat.sub_diag.
Qed.

(** An iteration that returns has appended one entry to each list, and the
    entries are those of one replica. *)
Lemma loop_body_returns (methods : Methods) (self : Task) (i : nat)
  (data additional : value) (l l' : locals) (s s' : store) :
  loop_body methods self i data additional l s = (s', Returned l') ->
  aligned l i ->
  aligned l' (S i) /\ extends l l'
  /\ replica_at methods self l' i data additional.
Proof.
  rewrite loop_body_eq. cbv zeta.
  destruct (transform _ _ _ _ _ _) as [e|[[d' p'] t']] eqn:Htr; [discriminate|].
  intros H (A1 & A2 & A3 & A4 & A5). injection H as _ <-.
  split; [|split].
  - unfold aligned; cbn [l_nets l_inputs l_predictions l_truths l_names].
    rewrite !length_app; cbn [length]. repeat split; lia.
  - unfold extends; cbn [l_nets l_inputs l_predictions l_truths l_names].
    repeat split; eexists; reflexivity.
  - exists (built_net self data l), d', p', t'.
    cbn [l_nets l_inputs l_predictions l_truths l_names].
    assert (Hflag : bool_of_list (l_nets l) = negb (i =? 0)%nat).
    { destruct (l_nets l); cbn in A1; subst i; reflexivity. }
    repeat split.
    + unfold built_net. now rewrite Hflag.
    + exact Htr.
    + rewrite <- A1. apply nth_error_snoc.
    + rewrite <- A2. apply nth_error_snoc.
    + rewrite <- A3. apply nth_error_snoc.
    + rewrite <- A4. apply nth_error_snoc.
    + rewrite <- A5. apply nth_error_snoc.
Qed.

(** *** The construction loop *)

Lemma loop_returns (methods : Methods) (self : Task)
  (pairs : list (value * value)) :
  forall (k : nat) (l l' : locals) (s s' : store),
    _instantiate_nets_loop methods self (enumerate_from k pairs) l s
    = (s', Returned l') ->
    aligned l k ->
    aligned l' (k + length pairs) /\ extends l l'
    /\ forall j data additional,
         nth_error pairs j = Some (data, additional) ->
         replica_at methods self l' (k + j) data additional.
Proof.
  induction pairs as [|[data additional] pairs IH]; intros k l l' s s' Hrun Hal.
  - cbn in Hrun. injection Hrun as _ <-.
    rewrite Nat.add_0_r. split; [exact Hal|]. split; [apply extends_refl|].
    intros [|j] ? ? Hj; discriminate.
  - cbn [enumerate_from _instantiate_nets_loop] in Hrun.
    unfold bind in Hrun.
    destruct (loop_body methods self k data additional l s) as [s1 [l1| |]] eqn:Hbody;
      try discriminate.
    destruct (loop_body_returns _ _ _ _ _ _ _ _ _ Hbody Hal) as (Hal1 & Hext1 & Hrep).
    destruct (IH _ _ _ _ _ Hrun Hal1) as (Hal' & Hext' & Hrest).
    split; [|split].
    + cbn [length]. now rewrite <- Nat.add_succ_comm.
    + eapply extends_trans; eassumption.
    + intros [|j] d a Hj.
      * cbn in Hj. injection Hj as <- <-. rewrite Nat.add_0_r.
        eapply replica_at_extends; eassumption.
      * cbn in Hj. rewrite <- Nat.add_succ_comm. now apply Hrest.
Qed.

(** The loop leaves the device and name-scope stacks as it found them, and
    no iteration with an index other than 0 touches the estimator. *)
Lemma loop_store (methods : Methods) (self : Task)
  (pairs : list (value * value)) :
  forall (k : nat) (l : locals) (s s' : store) (r : outcome locals),
    _instantiate_nets_loop methods self (enumerate_from k pairs) l s = (s', r) ->
    devices s' = devices s /\ name_scopes s' = name_scopes s
    /\ (k <> 0 -> estimator s' = estimator s).
Proof.
  induction pairs as [|[data additional] pairs IH]; intros k l s s' r Hrun.
  - cbn in Hrun. injection Hrun as <- _. auto.
  - cbn [enumerate_from _instantiate_nets_loop] in Hrun.
    unfold bind in Hrun. rewrite loop_body_eq in Hrun. cbv zeta in Hrun.
    destruct (transform _ _ _ _ _ _) as [e|[[d' p'] t']].
    + injection Hrun as <- _. cbn. auto.
    + apply IH in Hrun. destruct Hrun as (Hd & Hn & He).
      cbn in Hd, Hn. repeat split; auto.
      intros Hk. rewrite He by lia.
      destruct (Nat.eqb_spec k 0) as [->|_]; [contradiction|].
      cbn. now rewrite app_nil_r.
Qed.

Lemma registered_mode (a b : Task) (root mapping : value) :
  mode a = mode b -> registered a root mapping = registered b root mapping.
Proof.
  intros H. unfold registered, history_of. now rewrite H.
Qed.

(** When the loop starts at index 0 and returns, the estimator has
    received the registrations of replica 0 and nothing else. *)
Lemma loop_estimator (methods : Methods) (self : Task)
  (pairs : list (value * value)) (l' : locals) (s s' : store)
  (prediction0 truth0 : value) :
  _instantiate_nets_loop methods self (enumerate pairs) no_replicas s
  = (s', Returned l') ->
  nth_error (l_predictions l') 0 = Some prediction0 ->
  nth_error (l_truths l') 0 = Some truth0 ->
  estimator s'
  = estimator s ++ registered self (VStr "prediction") prediction0
                ++ registered self (VStr "truth") truth0.
Proof.
  unfold enumerate. destruct pairs as [|[data additional] pairs].
  - cbn. intros H. injection H as _ <-. discriminate.
  - cbn [enumerate_from _instantiate_nets_loop]. unfold bind.
    rewrite loop_body_eq. cbv zeta.
    destruct (transform _ _ _ _ _ _) as [e|[[d' p'] t']]; [discriminate|].
    intros Hrun Hp Ht.
    destruct (loop_store _ _ _ _ _ _ _ _ Hrun) as (_ & _ & He).
    rewrite He by lia.
    apply loop_returns in Hrun.
    2:{ unfold aligned; cbn; auto. }
    destruct Hrun as (_ & (_ & _ & [x3 E3] & [x4 E4] & _) & _).
    rewrite E3 in Hp. rewrite E4 in Ht. cbn in Hp, Ht.
    injection Hp as <-. injection Ht as <-.
    cbn. reflexivity.
Qed.

(** *** Construction *)

Lemma init_returns (methods : Methods) (session0 : Session) (s s' : store)
  (task : Task) :
  __init__ methods session0 s = (s', Returned task) ->
  exists pairs,
    data_source methods (new_self session0) = inr pairs
    /\ _instantiate_nets_loop methods (new_self session0) (enumerate pairs)
         no_replicas s = (s', Returned (locals_of task))
    /\ is_test task = isinstance_Test session0
    /\ session task = session0
    /\ config task = session_config session0
    /\ num_gpus task = system_num_gpus (system (session_config session0))
    /\ mode task = session_mode session0.
Proof.
  unfold __init__, _instantiate_nets, bind, lift.
  destruct (data_source methods (new_self session0)) as [e|pairs];
    [discriminate|].
  cbv [ret].
  destruct (_instantiate_nets_loop _ _ _ _ s) as [s1 [l| |]] eqn:Hloop;
    try discriminate.
  intros H. injection H as <- <-.
  exists pairs. destruct l. cbn. repeat split; try reflexivity. exact Hloop.
Qed.

Lemma init_replicas (methods : Methods) (session0 : Session) (s s' : store)
  (task : Task) :
  __init__ methods session0 s = (s', Returned task) ->
  exists pairs,
    data_source methods (new_self session0) = inr pairs
    /\ aligned (locals_of task) (length pairs)
    /\ forall i data additional,
         nth_error pairs i = Some (data, additional) ->
         replica_at methods (new_self session0) (locals_of task) i data additional.
Proof.
  intros H. destruct (init_returns _ _ _ _ _ H) as (pairs & Hsrc & Hloop & _).
  exists pairs. split; [exact Hsrc|].
  apply loop_returns in Hloop.
  2:{ unfold aligned; cbn; auto. }
  destruct Hloop as (Hal & _ & Hrep). auto.
Qed.

(** *** The [map] generator *)

Lemma length_enumerate_zip3 (ns : list TFNet) :
  forall (ps ts : list value) (k : nat),
    length ps = length ns -> length ts = length ns ->
    length (enumerate_from k (zip3 ns ps ts)) = length ns.
Proof.
  induction ns as [|n ns IH]; intros [|p ps] [|t ts] k Hp Ht;
    try discriminate; cbn; [reflexivity|].
  f_equal. apply IH; cbn in *; lia.
Qed.

Lemma nth_error_middle {A : Type} (pre : list A) (x : A) (rest : list A)
  (k : nat) :
  length pre = k -> nth_error (pre ++ x :: rest) k = Some x.
Proof.
  intros <-. rewrite nth_error_app2 by lia. now rewrite Nat.sub_diag.
Qed.

Lemma subscript_middle {A : Type} (pre : list A) (x : A) (rest : list A)
  (k : nat) :
  length pre = k -> subscript (pre ++ x :: rest) k = inr x.
Proof.
  intros H. unfold subscript. now rewrite (nth_error_middle _ _ _ _ H).
Qed.

Lemma snoc_cons {A : Type} (pre : list A) (x : A) (rest : list A) :
  pre ++ x :: rest = (pre ++ [x]) ++ rest.
Proof. now rewrite <- app_assoc. Qed.

(** [map] is lazy: one [next] makes one application, and the generator
    is suspended with the device scope of that replica still open. *)
Lemma py_next_yields_inside_scope
  (func : TFNet -> value -> value -> Exc value) (i : nat) (n : TFNet)
  (p t v : value) (rest : list (nat * (TFNet * value * value))) (s : store) :
  func n p t = inr v ->
  py_next {| gen_func := func; gen_pending := (i, (n, p, t)) :: rest;
             gen_suspended := false |} s
  = (with_events
       [Applied (("/gpu:" ++ format_nat i)%string :: devices s)
                (("tower_" ++ format_nat i)%string :: name_scopes s) n p t]
       (enter_gpu_context i s),
     Returned (Some v, {| gen_func := func; gen_pending := rest;
                          gen_suspended := true |})).
Proof.
  intros Hv. cbv [py_next]. cbn [gen_pending gen_suspended gen_func].
  now rewrite Hv.
Qed.

Lemma py_list_loop_stop (fuel : nat)
  (func : TFNet -> value -> value -> Exc value) (b : bool) (st : store) :
  py_list_loop (S fuel)
    {| gen_func := func; gen_pending := []; gen_suspended := b |} st
  = (if b then exit_gpu_context st else st, Returned []).
Proof. reflexivity. Qed.

Lemma py_list_loop_step (fuel : nat)
  (func : TFNet -> value -> value -> Exc value) (i : nat) (n : TFNet)
  (p t : value) (rest : list (nat * (TFNet * value * value))) (b : bool)
  (st : store) :
  py_list_loop (S fuel)
    {| gen_func := func; gen_pending := (i, (n, p, t)) :: rest;
       gen_suspended := b |} st
  = let st0 := if b then exit_gpu_context st else st in
    let st1 := enter_gpu_context i st0 in
    let st2 := with_events [Applied (devices st1) (name_scopes st1) n p t] st1 in
    match func n p t with
    | inl e => (exit_gpu_context st2, Raised e)
    | inr v =>
        match py_list_loop fuel
                {| gen_func := func; gen_pending := rest;
                   gen_suspended := true |} st2 with
        | (s', Returned vs) => (s', Returned (v :: vs))
        | (s', Raised e) => (s', Raised e)
        | (s', OutOfFuel) => (s', OutOfFuel)
        end
    end.
Proof.
  cbn [py_list_loop]. unfold bind at 1. cbv [py_next].
  cbn [gen_pending gen_suspended gen_func].
  destruct (func n p t) as [e|v]; [reflexivity|].
  cbv zeta. unfold bind.
  change (fst (record_event ?e ?s)) with (with_events [e] s).
  destruct (py_list_loop fuel _ _) as [s' [vs| |]]; reflexivity.
Qed.

(** Consuming the generator from any of its suspension points: the values
    are those of the comprehension over the indices still pending, and when
    it returns the framework has recorded one application per index, each
    inside the device scope of that index.  [s] fixes the ambient stacks. *)
Lemma py_list_loop_spec (self : Task)
  (func : TFNet -> value -> value -> Exc value) (s : store) (ns : list TFNet) :
  forall (ps ts : list value) (pre_n : list TFNet) (pre_p pre_t : list value)
         (k fuel : nat) (b : bool) (st : store),
    nets self = pre_n ++ ns ->
    predictions self = pre_p ++ ps ->
    truths self = pre_t ++ ts ->
    length pre_n = k -> length pre_p = k -> length pre_t = k ->
    length ps = length ns -> length ts = length ns ->
    length ns < fuel ->
    devices (if b then exit_gpu_context st else st) = devices s ->
    name_scopes (if b then exit_gpu_context st else st) = name_scopes s ->
    let r := py_list_loop fuel
               {| gen_func := func;
                  gen_pending := enumerate_from k (zip3 ns ps ts);
                  gen_suspended := b |} st in
    snd r = outcome_of (comprehension (apply_at self func) (seq k (length ns)))
    /\ forall vs, snd r = Returned vs ->
         fst r = with_events
                   (flat_map (applied_in_scope self s) (seq k (length ns)))
                   (if b then exit_gpu_context st else st).
Proof.
  induction ns as [|n ns IH];
    intros [|p ps] [|t ts] pre_n pre_p pre_t k [|fuel] b st
           Hn Hp Ht Ln Lp Lt Lps Lts Hfuel Hd Hs; try discriminate;
    try (cbn in Hfuel; lia); cbv zeta.
  - cbn [zip3 enumerate_from]. rewrite py_list_loop_stop. cbn.
    split; [reflexivity|]. intros _ _. now rewrite with_events_nil.
  - cbn [length seq comprehension flat_map enumerate_from zip3].
    rewrite py_list_loop_step. cbv zeta.
    set (st0 := if b then exit_gpu_context st else st) in *.
    assert (Hk : apply_at self func k = func n p t).
    { unfold apply_at. rewrite Hn, Hp, Ht.
      now rewrite (subscript_middle _ _ _ _ Ln), (subscript_middle _ _ _ _ Lp),
        (subscript_middle _ _ _ _ Lt). }
    assert (He : applied_in_scope self s k
                 = [Applied (("/gpu:" ++ format_nat k)%string :: devices st0)
                            (("tower_" ++ format_nat k)%string :: name_scopes st0)
                            n p t]).
    { unfold applied_in_scope. rewrite Hn, Hp, Ht.
      rewrite (nth_error_middle _ _ _ _ Ln), (nth_error_middle _ _ _ _ Lp),
        (nth_error_middle _ _ _ _ Lt).
      now rewrite Hd, Hs. }
    rewrite Hk. destruct (func n p t) as [e|v].
    + cbn. split; [reflexivity|discriminate].
    + match goal with
      | |- context [py_list_loop fuel ?g ?st1] =>
          specialize (IH ps ts (pre_n ++ [n]) (pre_p ++ [p]) (pre_t ++ [t])
                        (S k) fuel true st1)
      end.
      cbv zeta in IH.
      destruct IH as [IHr IHs].
      { now rewrite <- snoc_cons. }
      { now rewrite <- snoc_cons. }
      { now rewrite <- snoc_cons. }
      { rewrite length_app; cbn; lia. }
      { rewrite length_app; cbn; lia. }
      { rewrite length_app; cbn; lia. }
      { cbn in Lps; lia. }
      { cbn in Lts; lia. }
      { cbn in Hfuel; lia. }
      { cbn. exact Hd. }
      { cbn. exact Hs. }
      destruct (py_list_loop fuel _ _) as [s' [vs| |]] eqn:Hrun;
        cbn [snd fst] in *;
        destruct (comprehension (apply_at self func) (seq (S k) (length ns)))
          as [e'|vs']; cbn in IHr; try discriminate.
      * injection IHr as ->. cbn. split; [reflexivity|].
        intros _ _. rewrite (IHs _ eq_refl), He.
        cbv [exit_gpu_context enter_gpu_context with_events].
        cbn. now rewrite <- app_assoc.
      * cbn. split; [exact IHr|discriminate].
Qed.

Lemma py_list_map_spec (self : Task)
  (func : TFNet -> value -> value -> Exc value) (N : nat) (s : store) :
  length (nets self) = N -> length (predictions self) = N ->
  length (truths self) = N ->
  snd (py_list (map self func) s)
  = outcome_of (comprehension (apply_at self func) (seq 0 N))
  /\ forall vs, snd (py_list (map self func) s) = Returned vs ->
       fst (py_list (map self func) s)
       = with_events (flat_map (applied_in_scope self s) (seq 0 N)) s.
Proof.
  intros Ln Lp Lt. unfold py_list, map, enumerate.
  cbn [gen_pending].
  rewrite length_enumerate_zip3 by congruence.
  rewrite <- Ln.
  apply (py_list_loop_spec self func s (nets self) (predictions self)
           (truths self) [] [] [] 0 (S (length (nets self))) false s);
    try reflexivity; try congruence; lia.
Qed.

Lemma comprehension_length {A : Type} (f : nat -> Exc A) (indices : list nat) :
  forall vs, comprehension f indices = inr vs ->
    length vs = length indices
    /\ forall j i, nth_error indices j = Some i ->
         exists v, nth_error vs j = Some v /\ f i = inr v.
Proof.
  induction indices as [|i indices IH]; intros vs H; cbn in H.
  - injection H as <-. split; [reflexivity|]. intros [|j] ?; discriminate.
  - destruct (f i) as [e|v] eqn:Hf; [discriminate|].
    destruct (comprehension f indices) as [e|vs']; [discriminate|].
    injection H as <-. destruct (IH _ eq_refl) as [Hlen Hnth].
    split; [cbn; now rewrite Hlen|].
    intros [|j] i' Hj; cbn in Hj.
    + injection Hj as <-. exists v. auto.
    + cbn. now apply Hnth.
Qed.

(** *** The claims *)

(** C1 (amended).  After construction completes, [nets], [inputs],
    [predictions] and [truths] all have the length of the sequence of pairs
    the data source yielded, whatever device count is configured; index [i]
    of each holds the replica built from the [i]-th pair; the common length is
    the configured device count exactly when the source yields that many
    pairs. *)
Theorem replica_sequences_follow_data_source (methods : Methods)
  (session0 : Session) (s s' : store) (task : Task) :
  __init__ methods session0 s = (s', Returned task) ->
  exists pairs,
    data_source methods (new_self session0) = inr pairs
    /\ length (nets task) = length pairs
    /\ length (inputs task) = length pairs
    /\ length (predictions task) = length pairs
    /\ length (truths task) = length pairs
    /\ (forall i data additional,
          nth_error pairs i = Some (data, additional) ->
          replica_at methods (new_self session0) (locals_of task) i
            data additional)
    /\ num_gpus task = system_num_gpus (system (session_config session0))
    /\ (length (nets task) = num_gpus task <-> length pairs = num_gpus task).
Proof.
  intros H.
  destruct (init_replicas _ _ _ _ _ H) as (pairs & Hsrc & Hal & Hrep).
  destruct (init_returns _ _ _ _ _ H) as (_ & _ & _ & _ & _ & _ & Hgpus & _).
  destruct Hal as (A1 & A2 & A3 & A4 & _). cbn in A1, A2, A3, A4.
  exists pairs. repeat split; auto; congruence.
Qed.

Lemma registered_length (self : Task) (root mapping : value) :
  length (registered self root mapping) = registrations_count mapping.
Proof.
  unfold registered, registrations_count.
  destruct (is_Mapping mapping); [apply length_map|reflexivity].
Qed.

(** C3 (amended).  When construction completes, the estimator has received,
    after what it held before, exactly the calls of one run of the
    registration routine on the transformed prediction and truth of replica 0
    (one call for a value that is not a mapping, one per item of a mapping),
    and nothing at all when no replica was built.  The calls are made by the
    iteration for index 0; the iteration for any other index leaves the
    estimator as it found it. *)
Theorem estimates_registered_for_replica_0_only (methods : Methods)
  (session0 : Session) (s s' : store) (task : Task) :
  __init__ methods session0 s = (s', Returned task) ->
  estimator s'
  = estimator s
    ++ match predictions task, truths task with
       | prediction0 :: _, truth0 :: _ =>
           registered task (VStr "prediction") prediction0
           ++ registered task (VStr "truth") truth0
       | _, _ => []
       end
  /\ (forall prediction0 truth0,
        nth_error (predictions task) 0 = Some prediction0 ->
        nth_error (truths task) 0 = Some truth0 ->
        length (estimator s')
        = length (estimator s) + registrations_count prediction0
          + registrations_count truth0)
  /\ (forall i data additional l st,
        i <> 0 ->
        estimator (fst (loop_body methods (new_self session0) i data additional
                          l st))
        = estimator st)
  /\ (forall data additional l l' st st',
        loop_body methods (new_self session0) 0 data additional l st
        = (st', Returned l') ->
        exists prediction' truth',
          l_predictions l' = l_predictions l ++ [prediction']
          /\ l_truths l' = l_truths l ++ [truth']
          /\ estimator st'
             = estimator st
               ++ registered (new_self session0) (VStr "prediction") prediction'
               ++ registered (new_self session0) (VStr "truth") truth').
Proof.
  intros H.
  destruct (init_returns _ _ _ _ _ H)
    as (pairs & _ & Hloop & _ & _ & _ & _ & Hmode).
  assert (Hal : aligned (locals_of task) (length pairs)).
  { apply loop_returns in Hloop; [apply Hloop|]. unfold aligned; cbn; auto. }
  destruct Hal as (_ & _ & A3 & A4 & _). cbn in A3, A4.
  assert (Hest : estimator s'
                 = estimator s
                   ++ match predictions task, truths task with
                      | prediction0 :: _, truth0 :: _ =>
                          registered task (VStr "prediction") prediction0
                          ++ registered task (VStr "truth") truth0
                      | _, _ => []
                      end).
  { destruct (predictions task) as [|p0 ps] eqn:Ep;
      destruct (truths task) as [|t0 ts] eqn:Et;
      cbn in A3, A4; try congruence.
    - destruct pairs; [|discriminate]. cbn in Hloop.
      injection Hloop as <- _. now rewrite app_nil_r.
    - rewrite (loop_estimator _ _ _ _ _ _ p0 t0 Hloop)
        by (cbn; now rewrite ?Ep, ?Et).
      rewrite (registered_mode task (new_self session0)) by exact Hmode.
      rewrite (registered_mode task (new_self session0) (VStr "truth"))
        by exact Hmode.
      reflexivity. }
  split; [exact Hest|]. split; [|split].
  - intros p0 t0 Hp Ht. rewrite Hest.
    destruct (predictions task) as [|p ps]; [discriminate|].
    destruct (truths task) as [|t ts]; [discriminate|].
    cbn in Hp, Ht. injection Hp as ->. injection Ht as ->.
    rewrite !length_app, !registered_length. lia.
  - intros i data additional l st Hi. rewrite loop_body_eq. cbv zeta.
    destruct (transform _ _ _ _ _ _) as [e|[[d' p'] t']]; [reflexivity|].
    destruct (Nat.eqb_spec i 0) as [->|_]; [contradiction|].
    cbn. now rewrite app_nil_r.
  - intros data additional l l' st st'. rewrite loop_body_eq. cbv zeta.
    destruct (transform _ _ _ _ _ _) as [e|[[d' p'] t']]; [discriminate|].
    intros Hbody. injection Hbody as <- <-.
    exists p', t'. cbn. auto.
Qed.

(** C7.  Whether the task is in test mode is the run-time type of the
    session, fixed at construction.  For every pair [(data, additional)] of
    the data source, in test mode the name kept is [additional] and the truth
    handed to [transform] is [None]; otherwise the name kept is [None] and the
    truth handed on is [additional], which the default [transform] stores
    unchanged. *)
Theorem additional_is_split_by_session_type (methods : Methods)
  (session0 : Session) (s s' : store) (task : Task) :
  __init__ methods session0 s = (s', Returned task) ->
  is_test task = isinstance_Test session0
  /\ exists pairs,
       data_source methods (new_self session0) = inr pairs
       /\ forall i data additional,
            nth_error pairs i = Some (data, additional) ->
            nth_error (names task) i
            = Some (if isinstance_Test session0 then additional else VNone)
            /\ (exists net data' prediction' truth',
                  nth_error (nets task) i = Some net
                  /\ transform methods (new_self session0) net data (outputs net)
                       (if isinstance_Test session0 then VNone else additional)
                     = inr (data', prediction', truth')
                  /\ nth_error (truths task) i = Some truth')
            /\ (transform methods = transform TFTaskBase ->
                nth_error (truths task) i
                = Some (if isinstance_Test session0 then VNone else additional)).
Proof.
  intros H.
  destruct (init_replicas _ _ _ _ _ H) as (pairs & Hsrc & _ & Hrep).
  destruct (init_returns _ _ _ _ _ H) as (_ & _ & _ & Htest & _).
  split; [exact Htest|].
  exists pairs. split; [exact Hsrc|].
  intros i data additional Hi.
  destruct (Hrep _ _ _ Hi)
    as (net & d' & p' & t' & _ & Htr & Hn & _ & _ & Ht & Hname).
  cbn in Hn, Ht, Hname. unfold split_name, split_truth in *. cbn in Htr, Hname.
  split; [exact Hname|]. split.
  - exists net, d', p', t'. auto.
  - intros Hdefault. rewrite Hdefault in Htr. cbn in Htr.
    injection Htr as _ _ <-. exact Ht.
Qed.

(** C8.  The registration routine returns, and every call it makes to
    [estimator.register] passes [history = 'infinite'] if and only if the
    mode of the task is ['validate']; for every other mode it passes [None],
    the estimator's default. *)
Theorem history_is_infinite_iff_validate (self : Task)
  (prediction truth : value) (s : store) :
  exists regs,
    _register_estimates self prediction truth s
    = (with_registrations regs s, Returned tt)
    /\ Forall (fun r =>
                 (reg_history r = VStr "infinite" <-> mode self = "validate")
                 /\ (mode self <> "validate" -> reg_history r = VNone))
              regs.
Proof.
  eexists. split; [apply register_estimates_closed_form|].
  assert (Hh : forall r : registration,
             reg_history r = history_of self ->
             (reg_history r = VStr "infinite" <-> mode self = "validate")
             /\ (mode self <> "validate" -> reg_history r = VNone)).
  { intros r ->. unfold history_of.
    destruct (String.eqb_spec (mode self) "validate") as [E|E].
    - split; [tauto|contradiction].
    - split; [split; [discriminate|contradiction]|reflexivity]. }
  assert (Hreg : forall root mapping,
             Forall (fun r : registration => reg_history r = history_of self)
                    (registered self root mapping)).
  { intros root mapping. unfold registered.
    destruct (is_Mapping mapping).
    - apply Forall_forall. intros r Hin. apply in_map_iff in Hin.
      destruct Hin as ([key v] & <- & _). reflexivity.
    - repeat constructor. }
  apply Forall_app. split; (eapply Forall_impl; [|apply Hreg]); exact Hh.
Qed.

(** C9.  For every replica index [i], the net at index [i] is the one built
    from the session, the model of the configuration and the [i]-th data
    tensor as the source yielded it, with a reuse flag that is false for
    [i = 0] and true for every [i > 0]. *)
Theorem secondary_replicas_reuse (methods : Methods)
  (session0 : Session) (s s' : store) (task : Task) :
  __init__ methods session0 s = (s', Returned task) ->
  exists pairs,
    data_source methods (new_self session0) = inr pairs
    /\ length (nets task) = length pairs
    /\ forall i data additional,
         nth_error pairs i = Some (data, additional) ->
         nth_error (nets task) i
         = Some (new_TFNet session0 (model (session_config session0)) data
                   (negb (i =? 0)%nat)).
Proof.
  intros H.
  destruct (init_replicas _ _ _ _ _ H) as (pairs & Hsrc & Hal & Hrep).
  exists pairs. split; [exact Hsrc|]. split; [apply Hal|].
  intros i data additional Hi.
  destruct (Hrep _ _ _ Hi) as (net & _ & _ & _ & -> & _ & Hn & _).
  exact Hn.
Qed.

(** C10.  Whatever the mode and the type of the session, after construction
    [names] has the length of [nets], [inputs], [predictions] and [truths];
    when the session is not a test session every entry of [names] is
    [None]. *)
Theorem names_aligned_in_every_mode (methods : Methods)
  (session0 : Session) (s s' : store) (task : Task) :
  __init__ methods session0 s = (s', Returned task) ->
  length (names task) = length (nets task)
  /\ length (names task) = length (inputs task)
  /\ length (names task) = length (predictions task)
  /\ length (names task) = length (truths task)
  /\ (isinstance_Test session0 = false ->
      Forall (fun name => name = VNone) (names task)).
Proof.
  intros H.
  destruct (init_replicas _ _ _ _ _ H) as (pairs & Hsrc & Hal & Hrep).
  destruct Hal as (A1 & A2 & A3 & A4 & A5). cbn in A1, A2, A3, A4, A5.
  repeat split; try congruence.
  intros Htest. apply Forall_forall. intros name Hin.
  apply In_nth_error in Hin. destruct Hin as [i Hi].
  assert (Hlt : i < length pairs).
  { rewrite <- A5. apply nth_error_Some. congruence. }
  destruct (nth_error pairs i) as [[data additional]|] eqn:Hpair.
  2:{ apply nth_error_None in Hpair. lia. }
  destruct (Hrep _ _ _ Hpair) as (_ & _ & _ & _ & _ & _ & _ & _ & _ & _ & Hname).
  cbn in Hname. unfold split_name in Hname. cbn in Hname.
  rewrite Htest in Hname. congruence.
Qed.

(** C2 (the code departs from it).  Under a mapping the inner [register] is
    called as [register(value, 'root.key')], its two arguments in the other
    order than its parameters [(root, mapping)]: for a prediction
    [{"class": v}] the estimator receives the path string
    ["prediction.class"] as the value and [v] as the path, and for
    [{"a": {"b": v}}] it receives ["prediction.a"] with the whole inner
    mapping, whose leaf [v] is never reached. *)
Theorem nested_estimate_passes_path_as_value (self : Task) (v truth : value)
  (s : store) :
  _register_estimates self (VMapping [("class", v)]) truth s
  = (with_registrations
       ({| reg_value := VStr "prediction.class"; reg_path := v;
           reg_history := history_of self |}
        :: registered self (VStr "truth") truth) s,
     Returned tt)
  /\ _register_estimates self (VMapping [("a", VMapping [("b", v)])]) truth s
     = (with_registrations
          ({| reg_value := VStr "prediction.a";
              reg_path := VMapping [("b", v)];
              reg_history := history_of self |}
           :: registered self (VStr "truth") truth) s,
        Returned tt).
Proof.
  split; rewrite register_estimates_closed_form; reflexivity.
Qed.

(** C4.  For a task whose replica sequences have length [N], consuming
    [map(func)] gives the results [func(nets[i], predictions[i], truths[i])]
    for [i = 0, ..., N - 1] in that order, or the first exception among them;
    when all [N] calls return there are exactly [N] results, and the [i]-th
    call was made with ['/gpu:i'] on top of the device stack and ['tower_i']
    on top of the name-scope stack, both of which are restored afterwards. *)
Theorem map_yields_one_result_per_replica (self : Task)
  (func : TFNet -> value -> value -> Exc value) (N : nat) (s : store) :
  length (nets self) = N -> length (predictions self) = N ->
  length (truths self) = N ->
  snd (py_list (map self func) s)
  = outcome_of (comprehension (apply_at self func) (seq 0 N))
  /\ (forall vs, snd (py_list (map self func) s) = Returned vs ->
        length vs = N
        /\ (forall i, i < N ->
              exists v, nth_error vs i = Some v /\ apply_at self func i = inr v)
        /\ fst (py_list (map self func) s)
           = with_events (flat_map (applied_in_scope self s) (seq 0 N)) s)
  /\ (forall i, i < N ->
        exists net prediction truth,
          nth_error (nets self) i = Some net
          /\ nth_error (predictions self) i = Some prediction
          /\ nth_error (truths self) i = Some truth
          /\ applied_in_scope self s i
             = [Applied (("/gpu:" ++ format_nat i)%string :: devices s)
                        (("tower_" ++ format_nat i)%string :: name_scopes s)
                        net prediction truth]).
Proof.
  intros Ln Lp Lt.
  destruct (py_list_map_spec self func N s Ln Lp Lt) as [Hres Hst].
  split; [exact Hres|]. split.
  - intros vs Hvs. rewrite Hvs in Hres.
    destruct (comprehension (apply_at self func) (seq 0 N)) as [e|vs'] eqn:Hc;
      cbn in Hres; [discriminate|].
    injection Hres as ->.
    destruct (comprehension_length _ _ _ Hc) as [Hlen Hnth].
    rewrite length_seq in Hlen.
    split; [exact Hlen|]. split; [|eauto].
    intros i Hi. apply (Hnth i i).
    rewrite nth_error_nth' with (d := 0) by (rewrite length_seq; exact Hi).
    now rewrite seq_nth.
  - intros i Hi. unfold applied_in_scope.
    destruct (nth_error (nets self) i) as [net|] eqn:En.
    2:{ apply nth_error_None in En. lia. }
    destruct (nth_error (predictions self) i) as [prediction|] eqn:Ep.
    2:{ apply nth_error_None in Ep. lia. }
    destruct (nth_error (truths self) i) as [truth|] eqn:Et.
    2:{ apply nth_error_None in Et. lia. }
    exists net, prediction, truth. auto.
Qed.

(** C5.  For a task whose replica sequences have length [N], [map_train()]
    returns what the comprehension
    [[train(nets[i], predictions[i], truths[i]) for i in range(N)]] returns,
    the same list in the same order or the same first exception, and
    [map_eval()] does so for [eval]; when either returns, every one of the
    [N] applications has already been made. *)
Theorem map_train_is_the_eager_comprehension (methods : Methods) (self : Task)
  (N : nat) (s : store) :
  length (nets self) = N -> length (predictions self) = N ->
  length (truths self) = N ->
  snd (map_train methods self s) = outcome_of (map_train_spec methods self N)
  /\ snd (map_eval methods self s) = outcome_of (map_eval_spec methods self N)
  /\ (forall vs, snd (map_train methods self s) = Returned vs ->
        length vs = N
        /\ fst (map_train methods self s)
           = with_events (flat_map (applied_in_scope self s) (seq 0 N)) s)
  /\ (forall vs, snd (map_eval methods self s) = Returned vs ->
        length vs = N
        /\ fst (map_eval methods self s)
           = with_events (flat_map (applied_in_scope self s) (seq 0 N)) s).
Proof.
  intros Ln Lp Lt. unfold map_train, map_eval, map_train_spec, map_eval_spec.
  destruct (py_list_map_spec self (train methods self) N s Ln Lp Lt) as [Ht Hts].
  destruct (py_list_map_spec self (eval methods self) N s Ln Lp Lt) as [He Hes].
  assert (Hlen : forall func vs,
             outcome_of (comprehension (apply_at self func) (seq 0 N))
             = Returned vs -> length vs = N).
  { intros func vs H.
    destruct (comprehension (apply_at self func) (seq 0 N)) as [e|vs'] eqn:Hc;
      cbn in H; [discriminate|].
    injection H as ->. apply comprehension_length in Hc.
    destruct Hc as [Hl _]. now rewrite length_seq in Hl. }
  split; [exact Ht|]. split; [exact He|]. split; intros vs Hvs; split; eauto.
  - apply (Hlen (train methods self)). now rewrite <- Ht.
  - apply (Hlen (eval methods self)). now rewrite <- He.
Qed.

(** C6 (amended).  Each of [generate], [augment], [train], [eval] and
    [test] of the base task raises, on every invocation and whatever its
    arguments, a [NotImplementedError] whose message names the method, and
    never returns a value.  Construction itself makes the first call of the
    data source: constructing a base task raises the error of that call, that
    of [generate] when the session is not a test session. *)
Theorem base_methods_raise_on_every_call (self : Task) (serialized : string)
  (net : TFNet) (a b c : value) (session0 : Session) (s : store) :
  (exists msg, generate TFTaskBase self = inl (NotImplementedError msg)
               /\ str_contains ".generate()" msg = true)
  /\ (exists msg, augment TFTaskBase self serialized
                  = inl (NotImplementedError msg)
                  /\ str_contains ".augment()" msg = true)
  /\ (exists msg, train TFTaskBase self net a b = inl (NotImplementedError msg)
                  /\ str_contains ".train()" msg = true)
  /\ (exists msg, eval TFTaskBase self net a b = inl (NotImplementedError msg)
                  /\ str_contains ".eval()" msg = true)
  /\ (exists msg, test TFTaskBase self a b c = inl (NotImplementedError msg)
                  /\ str_contains ".test()" msg = true)
  /\ (exists e, data_source TFTaskBase (new_self session0) = inl e
                /\ __init__ TFTaskBase session0 s = (s, Raised e)
                /\ (isinstance_Test session0 = false ->
                    generate TFTaskBase (new_self session0) = inl e)).
Proof.
  repeat split; try (eexists; split; reflexivity).
  unfold __init__, _instantiate_nets, bind, lift, data_source.
  cbn [is_test new_self].
  destruct (isinstance_Test session0).
  - destruct (subscript _ 0) as [e|folder].
    + exists e. repeat split. discriminate.
    + eexists. repeat split. discriminate.
  - eexists. repeat split.
Qed.

(** *** Construction: scopes, trace and errors *)

(** The trace of a loop that returns, started on the stacks of [s0]. *)
Lemma loop_trace (methods : Methods) (self : Task) (s0 : store)
  (pairs : list (value * value)) :
  forall (k : nat) (l l' : locals) (s s' : store),
    _instantiate_nets_loop methods self (enumerate_from k pairs) l s
    = (s', Returned l') ->
    aligned l k ->
    devices s = devices s0 -> name_scopes s = name_scopes s0 ->
    trace s' = trace s ++ construction_trace self s0 (enumerate_from k pairs).
Proof.
  induction pairs as [|[data additional] pairs IH];
    intros k l l' s s' Hrun Hal Hd Hn.
  - cbn in Hrun. injection Hrun as <- _. cbn. now rewrite app_nil_r.
  - cbn [enumerate_from _instantiate_nets_loop] in Hrun.
    unfold bind in Hrun.
    destruct (loop_body methods self k data additional l s) as [s1 [l1| |]]
      eqn:Hbody; try discriminate.
    destruct (loop_body_returns _ _ _ _ _ _ _ _ _ Hbody Hal) as (Hal1 & _ & _).
    rewrite loop_body_eq in Hbody. cbv zeta in Hbody.
    destruct (transform _ _ _ _ _ _) as [e|[[d' p'] t']]; [discriminate|].
    injection Hbody as <- _.
    rewrite (IH _ _ _ _ _ Hrun Hal1) by (cbn; assumption).
    cbn [trace with_registrations with_events].
    unfold construction_trace. cbn [enumerate_from flat_map].
    unfold construction_events, built_net.
    assert (Hflag : bool_of_list (l_nets l) = negb (k =? 0)%nat).
    { destruct Hal as (A1 & _). destruct (l_nets l); cbn in A1; subst k;
        reflexivity. }
    rewrite Hflag, Hd, Hn, <- !app_assoc. reflexivity.
Qed.

(** X1.  When construction completes, it has left the device and
    name-scope stacks as it found them: every device scope entered to build a
    replica has been left again. *)
Theorem completed_construction_leaves_scopes_balanced (methods : Methods)
  (session0 : Session) (s s' : store) (task : Task) :
  __init__ methods session0 s = (s', Returned task) ->
  devices s' = devices s /\ name_scopes s' = name_scopes s.
Proof.
  intros H. destruct (init_returns _ _ _ _ _ H) as (pairs & _ & Hloop & _).
  destruct (loop_store _ _ _ _ _ _ _ _ Hloop) as (Hd & Hn & _). auto.
Qed.

(** X2.  When construction completes, what the framework recorded is, for
    each pair of the data source in order, the debug line for its index
    followed by the net built from its data inside ['/gpu:i'] and ['tower_i'],
    pushed on the stacks construction was started on; the net of index 0 is
    built without the reuse flag and every later one with it. *)
Theorem replicas_built_in_device_order (methods : Methods)
  (session0 : Session) (s s' : store) (task : Task) :
  __init__ methods session0 s = (s', Returned task) ->
  exists pairs,
    data_source methods (new_self session0) = inr pairs
    /\ trace s'
       = trace s ++ construction_trace (new_self session0) s (enumerate pairs).
Proof.
  intros H. destruct (init_returns _ _ _ _ _ H) as (pairs & Hsrc & Hloop & _).
  exists pairs. split; [exact Hsrc|].
  apply (loop_trace _ _ s) in Hloop; auto.
  unfold aligned; cbn; auto.
Qed.

(** X3.  When the call of the data source itself raises, be it
    [generate()], [augment(folder)] or [inputs[0]], construction raises that
    same exception, neither caught nor wrapped, before a net is built or
    anything is registered. *)
Theorem data_source_error_comes_out_unchanged (methods : Methods)
  (session0 : Session) (s : store) (e : error) :
  data_source methods (new_self session0) = inl e ->
  __init__ methods session0 s = (s, Raised e).
Proof.
  intros Hsrc. unfold __init__, _instantiate_nets, bind, lift.
  now rewrite Hsrc.
Qed.

(** X4.  In a test session whose configuration lists no input folder,
    construction raises the [IndexError] of [inputs[0]] whatever the methods
    are, before [augment] is called, a net is built or anything is
    registered. *)
Theorem test_session_needs_an_input_folder (methods : Methods)
  (session0 : Session) (s : store) :
  isinstance_Test session0 = true ->
  run_inputs (run (search_path (system (session_config session0)))) = [] ->
  __init__ methods session0 s
  = (s, Raised (IndexError "list index out of range")).
Proof.
  intros Htest Hin.
  unfold __init__, _instantiate_nets, bind, lift, data_source.
  cbn [is_test config new_self]. rewrite Htest, Hin. reflexivity.
Qed.

(** X5.  When the data source yields nothing, construction returns a task
    with five empty sequences and touches nothing; on that task [map_train]
    and [map_eval] return the empty list, also when [train] and [eval] are
    not implemented, and touch nothing either. *)
Theorem empty_data_source_gives_empty_task (methods : Methods)
  (session0 : Session) (s st : store) :
  data_source methods (new_self session0) = inr [] ->
  __init__ methods session0 s = (s, Returned (new_self session0))
  /\ map_train methods (new_self session0) st = (st, Returned [])
  /\ map_eval methods (new_self session0) st = (st, Returned []).
Proof.
  intros Hsrc. split; [|split; reflexivity].
  unfold __init__, _instantiate_nets, bind, lift. rewrite Hsrc. reflexivity.
Qed.

(** X6.  The attributes of a constructed task are those of its session:
    the session itself, its configuration, the configured device count and
    the mode. *)
Theorem task_attributes_come_from_session (methods : Methods)
  (session0 : Session) (s s' : store) (task : Task) :
  __init__ methods session0 s = (s', Returned task) ->
  session task = session0
  /\ config task = session_config session0
  /\ num_gpus task = system_num_gpus (system (session_config session0))
  /\ mode task = session_mode session0
  /\ Forall (fun net => net_session net = session0
                        /\ net_model net = model (session_config session0))
            (nets task).
Proof.
  intros H.
  destruct (init_returns _ _ _ _ _ H) as (_ & _ & _ & _ & Hs & Hc & Hg & Hm).
  destruct (init_replicas _ _ _ _ _ H) as (pairs & _ & Hal & Hrep).
  repeat split; auto.
  apply Forall_forall. intros net Hin.
  apply In_nth_error in Hin. destruct Hin as [i Hi].
  destruct Hal as (A1 & _). cbn in A1.
  destruct (nth_error pairs i) as [[data additional]|] eqn:Hpair.
  - destruct (Hrep _ _ _ Hpair) as (net' & _ & _ & _ & -> & _ & Hn & _).
    cbn in Hn. rewrite Hi in Hn. injection Hn as ->. cbn. auto.
  - apply nth_error_None in Hpair.
    assert (i < length (nets task)) by (apply nth_error_Some; congruence).
    lia.
Qed.

(** *** The default [transform] and the registrations *)

Lemma list_by_index {A B : Type} (f : B -> A) (src : list B) (l : list A) :
  length l = length src ->
  (forall i b, nth_error src i = Some b -> nth_error l i = Some (f b)) ->
  l = List.map f src.
Proof.
  intros Hlen H. apply nth_error_ext. intros n.
  rewrite nth_error_map.
  destruct (nth_error src n) as [b|] eqn:E; cbn.
  - now apply H.
  - apply nth_error_None. rewrite Hlen. now apply nth_error_None.
Qed.

(** X7.  When construction completes, [names] is the list of what the
    loop split off as names, in the order of the data source; under the
    default [transform], [inputs] is the list of the data yielded,
    [predictions] the list of the outputs of the nets, and [truths] the list
    of what the loop split off as truths. *)
Theorem default_transform_stores_what_was_yielded (methods : Methods)
  (session0 : Session) (s s' : store) (task : Task) :
  __init__ methods session0 s = (s', Returned task) ->
  exists pairs,
    data_source methods (new_self session0) = inr pairs
    /\ names task
       = List.map (fun pair => if isinstance_Test session0 then snd pair
                               else VNone) pairs
    /\ (transform methods = transform TFTaskBase ->
        inputs task = List.map fst pairs
        /\ predictions task = List.map outputs (nets task)
        /\ truths task
           = List.map (fun pair => if isinstance_Test session0 then VNone
                                   else snd pair) pairs).
Proof.
  intros H.
  destruct (init_replicas _ _ _ _ _ H) as (pairs & Hsrc & Hal & Hrep).
  destruct Hal as (A1 & A2 & A3 & A4 & A5). cbn in A1, A2, A3, A4, A5.
  exists pairs. split; [exact Hsrc|]. split.
  - apply list_by_index; [exact A5|].
    intros i [data additional] Hi.
    destruct (Hrep _ _ _ Hi) as (_ & _ & _ & _ & _ & _ & _ & _ & _ & _ & Hname).
    exact Hname.
  - intros Hdefault.
    assert (Hdef : forall i data additional,
               nth_error pairs i = Some (data, additional) ->
               exists net,
                 nth_error (nets task) i = Some net
                 /\ nth_error (inputs task) i = Some data
                 /\ nth_error (predictions task) i = Some (outputs net)
                 /\ nth_error (truths task) i
                    = Some (if isinstance_Test session0 then VNone
                            else additional)).
    { intros i data additional Hi.
      destruct (Hrep _ _ _ Hi)
        as (net & d' & p' & t' & _ & Htr & Hn & Hin & Hp & Ht & _).
      rewrite Hdefault in Htr. cbn in Htr. injection Htr as <- <- <-.
      exists net. auto. }
    split; [|split].
    + apply list_by_index; [exact A2|].
      intros i [data additional] Hi.
      destruct (Hdef _ _ _ Hi) as (_ & _ & Hin & _). exact Hin.
    + apply list_by_index; [congruence|].
      intros i net Hi.
      destruct (nth_error pairs i) as [[data additional]|] eqn:Hpair.
      * destruct (Hdef _ _ _ Hpair) as (net' & Hn & _ & Hp & _).
        rewrite Hi in Hn. now injection Hn as ->.
      * apply nth_error_None in Hpair.
        assert (i < length (nets task)) by (apply nth_error_Some; congruence).
        lia.
    + apply list_by_index; [exact A4|].
      intros i [data additional] Hi.
      destruct (Hdef _ _ _ Hi) as (_ & _ & _ & _ & Ht). exact Ht.
Qed.

(** X8.  In a test session, under the default [transform], a construction
    that completes with at least one replica has registered [None] with the
    estimator under the path ['truth'], after the registrations of the
    prediction of replica 0. *)
Theorem test_session_registers_None_as_truth (methods : Methods)
  (session0 : Session) (s s' : store) (task : Task) (prediction0 : value) :
  __init__ methods session0 s = (s', Returned task) ->
  isinstance_Test session0 = true ->
  transform methods = transform TFTaskBase ->
  nth_error (predictions task) 0 = Some prediction0 ->
  estimator s'
  = estimator s ++ registered task (VStr "prediction") prediction0
    ++ [{| reg_value := VNone; reg_path := VStr "truth";
           reg_history := history_of task |}].
Proof.
  intros H Htest Hdefault Hp.
  destruct (init_returns _ _ _ _ _ H) as (pairs0 & _ & Hloop & _ & _ & _ & _ & Hmode).
  destruct (init_replicas _ _ _ _ _ H) as (pairs & _ & Hal & Hrep).
  destruct Hal as (_ & _ & A3 & _). cbn in A3.
  destruct pairs as [|[data additional] pairs].
  { destruct (predictions task); cbn in *; discriminate. }
  destruct (Hrep 0 data additional eq_refl)
    as (net & d' & p' & t' & _ & Htr & _ & _ & _ & Ht & _).
  rewrite Hdefault in Htr. cbn in Htr. unfold split_truth in Htr.
  cbn in Htr. rewrite Htest in Htr. injection Htr as _ _ <-.
  cbn in Ht.
  rewrite (loop_estimator _ _ _ _ _ _ _ _ Hloop Hp Ht).
  rewrite (registered_mode task (new_self session0)) by exact Hmode.
  unfold registered at 2. cbn [is_Mapping]. unfold history_of.
  now rewrite Hmode.
Qed.

(** X9.  A prediction and a truth that are not mappings are registered in
    the intended order: the prediction as the value under the path
    ['prediction'], then the truth as the value under the path ['truth']. *)
Theorem leaf_estimates_registered_under_their_root (self : Task)
  (prediction truth : value) (s : store) :
  is_Mapping prediction = false ->
  is_Mapping truth = false ->
  _register_estimates self prediction truth s
  = (with_registrations
       [{| reg_value := prediction; reg_path := VStr "prediction";
           reg_history := history_of self |};
        {| reg_value := truth; reg_path := VStr "truth";
           reg_history := history_of self |}] s,
     Returned tt).
Proof.
  intros Hp Ht. rewrite register_estimates_closed_form.
  unfold registered. now rewrite Hp, Ht.
Qed.

(** X10.  The registration routine returns on every prediction and truth,
    however deeply nested: it makes one estimator call for a value that is not
    a mapping and one per item of a mapping, appends them to what the
    estimator had, and leaves the device stack, the name-scope stack and the
    trace alone. *)
Theorem registration_makes_one_call_per_item (self : Task)
  (prediction truth : value) (s : store) :
  snd (_register_estimates self prediction truth s) = Returned tt
  /\ (exists regs,
        estimator (fst (_register_estimates self prediction truth s))
        = estimator s ++ regs
        /\ length regs
           = registrations_count prediction + registrations_count truth)
  /\ devices (fst (_register_estimates self prediction truth s)) = devices s
  /\ name_scopes (fst (_register_estimates self prediction truth s))
     = name_scopes s
  /\ trace (fst (_register_estimates self prediction truth s)) = trace s.
Proof.
  rewrite register_estimates_closed_form. cbn.
  repeat split; try reflexivity.
  eexists. split; [reflexivity|].
  rewrite length_app. unfold registered, registrations_count.
  destruct (is_Mapping prediction), (is_Mapping truth);
    now rewrite ?length_map.
Qed.

(** X11.  [_gpu_context] is released on every path: around a body that
    leaves the two stacks as it finds them, whether it returns or raises, the
    stacks are afterwards what they were before, and the body ran with
    ['/gpu:gid'] and ['tower_gid'] on top of them. *)
Theorem gpu_context_releases_on_every_path {A : Type} (gid : nat)
  (body : M A) (s : store) :
  (forall st, devices (fst (body st)) = devices st
              /\ name_scopes (fst (body st)) = name_scopes st) ->
  devices (fst (_gpu_context gid body s)) = devices s
  /\ name_scopes (fst (_gpu_context gid body s)) = name_scopes s
  /\ snd (_gpu_context gid body s) = snd (body (enter_gpu_context gid s))
  /\ hd_error (devices (enter_gpu_context gid s))
     = Some ("/gpu:" ++ format_nat gid)%string
  /\ hd_error (name_scopes (enter_gpu_context gid s))
     = Some ("tower_" ++ format_nat gid)%string.
Proof.
  intros Hbody. unfold _gpu_context.
  destruct (Hbody (enter_gpu_context gid s)) as [Hd Hn].
  destruct (body (enter_gpu_context gid s)) as [s1 r].
  cbn in *. rewrite Hd, Hn. repeat split; reflexivity.
Qed.

(** *** The generator on every path *)

Lemma length_enumerate_zip3_min (ns : list TFNet) :
  forall (ps ts : list value) (k : nat),
    length (enumerate_from k (zip3 ns ps ts))
    = Nat.min (length ns) (Nat.min (length ps) (length ts)).
Proof.
  induction ns as [|n ns IH]; intros [|p ps] [|t ts] k; cbn; try reflexivity.
  f_equal. apply IH.
Qed.

(** Consuming a generator with any list of replicas pending, from any of
    its suspension points. *)
Lemma py_list_loop_balanced (func : TFNet -> value -> value -> Exc value)
  (its : list (nat * (TFNet * value * value))) :
  forall (fuel : nat) (b : bool) (st : store),
    length its < fuel ->
    let r := py_list_loop fuel
               {| gen_func := func; gen_pending := its; gen_suspended := b |}
               st in
    let st0 := if b then exit_gpu_context st else st in
    devices (fst r) = devices st0
    /\ name_scopes (fst r) = name_scopes st0
    /\ estimator (fst r) = estimator st0
    /\ snd r <> OutOfFuel
    /\ forall vs, snd r = Returned vs -> length vs = length its.
Proof.
  induction its as [|[i [[n p] t]] its IH]; intros [|fuel] b st Hfuel;
    try (cbn in Hfuel; lia); cbv zeta.
  - rewrite py_list_loop_stop. cbn. repeat split; try discriminate.
    intros vs H. now injection H as <-.
  - rewrite py_list_loop_step. cbv zeta.
    destruct (func n p t) as [e|v].
    + cbn. repeat split; discriminate.
    + match goal with
      | |- context [py_list_loop fuel ?g ?st1] =>
          specialize (IH fuel true st1)
      end.
      cbv zeta in IH.
      destruct IH as (Hd & Hn & He & Hr & Hlen); [cbn in Hfuel; lia|].
      destruct (py_list_loop fuel _ _) as [s' [vs| |]]; cbn in *;
        repeat split; auto; try discriminate.
      intros vs' H. injection H as <-. cbn. f_equal. now apply Hlen.
Qed.

(** The full account of consuming the generator of a task whose three
    sequences are aligned: the value or exception of the comprehension, and
    one recorded application for each call the comprehension makes. *)
Lemma py_list_loop_full (self : Task)
  (func : TFNet -> value -> value -> Exc value) (s : store) (ns : list TFNet) :
  forall (ps ts : list value) (pre_n : list TFNet) (pre_p pre_t : list value)
         (k fuel : nat) (b : bool) (st : store),
    nets self = pre_n ++ ns ->
    predictions self = pre_p ++ ps ->
    truths self = pre_t ++ ts ->
    length pre_n = k -> length pre_p = k -> length pre_t = k ->
    length ps = length ns -> length ts = length ns ->
    length ns < fuel ->
    devices (if b then exit_gpu_context st else st) = devices s ->
    name_scopes (if b then exit_gpu_context st else st) = name_scopes s ->
    py_list_loop fuel
      {| gen_func := func;
         gen_pending := enumerate_from k (zip3 ns ps ts);
         gen_suspended := b |} st
    = (with_events
         (flat_map (applied_in_scope self s)
            (seq k (calls_made (apply_at self func) (seq k (length ns)))))
         (if b then exit_gpu_context st else st),
       outcome_of (comprehension (apply_at self func) (seq k (length ns)))).
Proof.
  induction ns as [|n ns IH];
    intros [|p ps] [|t ts] pre_n pre_p pre_t k [|fuel] b st
           Hn Hp Ht Ln Lp Lt Lps Lts Hfuel Hd Hs; try discriminate;
    try (cbn in Hfuel; lia).
  - cbn [zip3 enumerate_from]. rewrite py_list_loop_stop. cbn.
    now rewrite with_events_nil.
  - cbn [length seq comprehension calls_made enumerate_from zip3].
    rewrite py_list_loop_step. cbv zeta.
    set (st0 := if b then exit_gpu_context st else st) in *.
    assert (Hk : apply_at self func k = func n p t).
    { unfold apply_at. rewrite Hn, Hp, Ht.
      now rewrite (subscript_middle _ _ _ _ Ln), (subscript_middle _ _ _ _ Lp),
        (subscript_middle _ _ _ _ Lt). }
    assert (He : applied_in_scope self s k
                 = [Applied (("/gpu:" ++ format_nat k)%string :: devices st0)
                            (("tower_" ++ format_nat k)%string :: name_scopes st0)
                            n p t]).
    { unfold applied_in_scope. rewrite Hn, Hp, Ht.
      rewrite (nth_error_middle _ _ _ _ Ln), (nth_error_middle _ _ _ _ Lp),
        (nth_error_middle _ _ _ _ Lt).
      now rewrite Hd, Hs. }
    rewrite Hk. destruct (func n p t) as [e|v].
    + cbn [seq flat_map outcome_of]. rewrite He, app_nil_r. reflexivity.
    + match goal with
      | |- context [py_list_loop fuel ?g ?st1] =>
          specialize (IH ps ts (pre_n ++ [n]) (pre_p ++ [p]) (pre_t ++ [t])
                        (S k) fuel true st1)
      end.
      rewrite IH.
      * cbn [seq flat_map]. rewrite He.
        destruct (comprehension (apply_at self func) (seq (S k) (length ns)));
          cbn [outcome_of];
          cbv [exit_gpu_context enter_gpu_context with_events];
          cbn; now rewrite <- app_assoc.
      * now rewrite <- snoc_cons.
      * now rewrite <- snoc_cons.
      * now rewrite <- snoc_cons.
      * rewrite length_app; cbn; lia.
      * rewrite length_app; cbn; lia.
      * rewrite length_app; cbn; lia.
      * cbn in Lps; lia.
      * cbn in Lts; lia.
      * cbn in Hfuel; lia.
      * cbn. exact Hd.
      * cbn. exact Hs.
Qed.

Lemma py_list_map_full (self : Task)
  (func : TFNet -> value -> value -> Exc value) (N : nat) (s : store) :
  length (nets self) = N -> length (predictions self) = N ->
  length (truths self) = N ->
  py_list (map self func) s
  = (with_events
       (flat_map (applied_in_scope self s)
          (seq 0 (calls_made (apply_at self func) (seq 0 N)))) s,
     outcome_of (comprehension (apply_at self func) (seq 0 N))).
Proof.
  intros Ln Lp Lt. unfold py_list, map, enumerate.
  cbn [gen_pending].
  rewrite length_enumerate_zip3 by congruence.
  rewrite <- Ln.
  apply (py_list_loop_full self func s (nets self) (predictions self)
           (truths self) [] [] [] 0 (S (length (nets self))) false s);
    try reflexivity; try congruence; lia.
Qed.

(** Where a comprehension stops when index [k + j] is the first to raise. *)
Lemma first_failure {A : Type} (f : nat -> Exc A) :
  forall (j k n : nat) (e : error),
    j < n ->
    f (k + j) = inl e ->
    (forall i, i < j -> exists v, f (k + i) = inr v) ->
    comprehension f (seq k n) = inl e /\ calls_made f (seq k n) = S j.
Proof.
  induction j as [|j IH]; intros k [|n] e Hj Hf Hbefore; try lia;
    cbn [seq comprehension calls_made].
  - rewrite Nat.add_0_r in Hf. rewrite Hf. auto.
  - destruct (Hbefore 0 ltac:(lia)) as [v Hv]. rewrite Nat.add_0_r in Hv.
    rewrite Hv.
    destruct (IH (S k) n e) as [Hc Hm].
    + lia.
    + now rewrite Nat.add_succ_comm.
    + intros i Hi. rewrite Nat.add_succ_comm. apply Hbefore. lia.
    + rewrite Hc, Hm. auto.
Qed.

(** X12.  Consuming [map(func)] releases every device scope it entered,
    whatever the task and whether [func] returns or raises: the device and
    name-scope stacks are afterwards as they were, the estimator is untouched,
    and the consumption ends. *)
Theorem map_releases_scopes_on_every_path (self : Task)
  (func : TFNet -> value -> value -> Exc value) (s : store) :
  devices (fst (py_list (map self func) s)) = devices s
  /\ name_scopes (fst (py_list (map self func) s)) = name_scopes s
  /\ estimator (fst (py_list (map self func) s)) = estimator s
  /\ snd (py_list (map self func) s) <> OutOfFuel.
Proof.
  unfold py_list.
  destruct (py_list_loop_balanced func (gen_pending (map self func))
              (S (length (gen_pending (map self func)))) false s
              (Nat.lt_succ_diag_r _)) as (Hd & Hn & He & Hr & _).
  auto.
Qed.

(** X13.  [map] zips the three sequences: when they have been given
    different lengths, consuming [map(func)] gives as many results as the
    shortest of [nets], [predictions] and [truths] has entries. *)
Theorem map_stops_at_shortest_sequence (self : Task)
  (func : TFNet -> value -> value -> Exc value) (s : store)
  (vs : list value) :
  snd (py_list (map self func) s) = Returned vs ->
  length vs
  = Nat.min (length (nets self))
      (Nat.min (length (predictions self)) (length (truths self))).
Proof.
  intros H. unfold py_list in H.
  destruct (py_list_loop_balanced func (gen_pending (map self func))
              (S (length (gen_pending (map self func)))) false s
              (Nat.lt_succ_diag_r _)) as (_ & _ & _ & _ & Hlen).
  rewrite (Hlen _ H). apply length_enumerate_zip3_min.
Qed.

(** X14.  When [func] raises a [NotImplementedError] or an [IndexError]
    on replica [j] and returns on every replica before it, consuming
    [map(func)] raises that exception; [func] has then been applied to the
    replicas [0] to [j], each inside its own device scope, and to none after
    [j], and no scope is left open.  ([StopIteration], which a generator does
    not pass on as it is, is not among the exceptions of [error].) *)
Theorem map_stops_at_first_exception (self : Task)
  (func : TFNet -> value -> value -> Exc value) (N j : nat) (e : error)
  (s : store) :
  length (nets self) = N -> length (predictions self) = N ->
  length (truths self) = N ->
  j < N ->
  apply_at self func j = inl e ->
  (forall i, i < j -> exists v, apply_at self func i = inr v) ->
  py_list (map self func) s
  = (with_events (flat_map (applied_in_scope self s) (seq 0 (S j))) s,
     Raised e).
Proof.
  intros Ln Lp Lt Hj He Hbefore.
  rewrite (py_list_map_full self func N s Ln Lp Lt).
  destruct (first_failure (apply_at self func) j 0 N e Hj He Hbefore)
    as [Hc Hm].
  now rewrite Hc, Hm.
Qed.

(** X15.  On a task with aligned sequences whose specialization does not
    implement [train] and [eval], [map_train] and [map_eval] return the empty
    list when there is no replica; otherwise they raise the capability error
    at replica 0, after entering and leaving its device scope, and reach no
    other replica. *)
Theorem unimplemented_train_fails_at_replica_0 (self : Task) (N : nat)
  (s : store) :
  length (nets self) = N -> length (predictions self) = N ->
  length (truths self) = N ->
  map_train TFTaskBase self s
  = (if (N =? 0)%nat then (s, Returned [])
     else (with_events (applied_in_scope self s 0) s,
           Raised (NotImplementedError
             "Please implement .train() which returns the loss tensor.")))
  /\ map_eval TFTaskBase self s
     = (if (N =? 0)%nat then (s, Returned [])
        else (with_events (applied_in_scope self s 0) s,
              Raised (NotImplementedError
                "Please implement .eval() which returns the evaluation metrics."))).
Proof.
  intros Ln Lp Lt. unfold map_train, map_eval.
  rewrite !(py_list_map_full self _ N s Ln Lp Lt).
  destruct N as [|N]; cbn [Nat.eqb seq comprehension calls_made].
  - cbn. now rewrite with_events_nil.
  - assert (Hfail : forall func e,
               (forall net p t, func net p t = inl e) ->
               apply_at self func 0 = inl e).
    { intros func e Hfunc. unfold apply_at, subscript.
      destruct (nets self); [discriminate|].
      destruct (predictions self); [discriminate|].
      destruct (truths self); [discriminate|]. cbn. apply Hfunc. }
    rewrite (Hfail (train TFTaskBase self) _ (fun _ _ _ => eq_refl)).
    rewrite (Hfail (eval TFTaskBase self) _ (fun _ _ _ => eq_refl)).
    cbn [seq flat_map outcome_of]. now rewrite app_nil_r.
Qed.

End Properties.

(** ** The theorems at the concrete specialization *)

Import Demo.

Lemma replica_sequences_follow_data_source_witness :
  __init__ Classify train_session empty_store = (built_store, Returned demo_task)
  /\ exists pairs,
       data_source Classify (new_self train_session) = inr pairs
       /\ length (nets demo_task) = length pairs
       /\ length (inputs demo_task) = length pairs
       /\ length (predictions demo_task) = length pairs
       /\ length (truths demo_task) = length pairs
       /\ (forall i data additional,
             nth_error pairs i = Some (data, additional) ->
             replica_at Classify (new_self train_session) (locals_of demo_task)
               i data additional)
       /\ num_gpus demo_task
          = system_num_gpus (system (session_config train_session))
       /\ (length (nets demo_task) = num_gpus demo_task
           <-> length pairs = num_gpus demo_task).
Proof.
  split; [reflexivity|].
  exact (replica_sequences_follow_data_source Classify train_session
           empty_store built_store demo_task eq_refl).
Defined.

(** C1 as stated fails: with one device configured, a data source that
    yields two pairs gives two replicas. *)
Lemma configured_device_count_does_not_bound_replicas :
  ~ (forall (methods : @Methods string string) (session0 : @Session string)
            (s s' : @store string string) (task : @Task string string),
        1 <= system_num_gpus (system (session_config session0)) ->
        __init__ methods session0 s = (s', Returned task) ->
        length (nets task) = system_num_gpus (system (session_config session0))
        /\ length (inputs task)
           = system_num_gpus (system (session_config session0))
        /\ length (predictions task)
           = system_num_gpus (system (session_config session0))
        /\ length (truths task)
           = system_num_gpus (system (session_config session0))).
Proof.
  intros H.
  assert (E : exists s' task,
             __init__ Classify single_gpu_session empty_store
             = (s', Returned task)
             /\ length (nets task) = 2).
  { vm_compute. eexists _, _. split; reflexivity. }
  destruct E as (s' & task & E & L).
  destruct (H Classify single_gpu_session empty_store s' task (le_n 1) E)
    as [Hn _].
  rewrite L in Hn. discriminate.
Qed.

Lemma estimates_registered_for_replica_0_only_witness :
  __init__ Classify train_session empty_store = (built_store, Returned demo_task)
  /\ estimator built_store
     = [{| reg_value := VStr "prediction.class"; reg_path := VTensor "d0";
           reg_history := VNone |};
        {| reg_value := VTensor "t0"; reg_path := VStr "truth";
           reg_history := VNone |}]
  /\ length (estimator built_store) = 2.
Proof.
  split; [reflexivity|].
  assert (Hbuilt : __init__ Classify train_session empty_store
                   = (built_store, Returned demo_task)) by reflexivity.
  destruct (estimates_registered_for_replica_0_only Classify train_session
              empty_store built_store demo_task Hbuilt)
    as (Hest & Hlen & _).
  split; [exact Hest|].
  exact (Hlen (VMapping [("class", VTensor "d0")]) (VTensor "t0")
           eq_refl eq_refl).
Defined.

(** C3 as stated fails: a construction that completes without a replica
    has registered nothing, and there is no replica 0 to register. *)
Lemma no_replica_no_registration :
  __init__ Idle train_session built_store
  = (built_store, Returned (new_self train_session))
  /\ ~ (forall (methods : @Methods string string) (session0 : @Session string)
               (s s' : @store string string) (task : @Task string string),
           __init__ methods session0 s = (s', Returned task) ->
           exists prediction0 truth0,
             nth_error (predictions task) 0 = Some prediction0
             /\ nth_error (truths task) 0 = Some truth0
             /\ estimator s'
                = estimator (fst (_register_estimates task prediction0 truth0
                                    s))).
Proof.
  split; [reflexivity|].
  intros H.
  assert (Hidle : __init__ Idle train_session built_store
                  = (built_store, Returned (new_self train_session)))
    by reflexivity.
  destruct (H Idle train_session built_store built_store
              (new_self train_session) Hidle)
    as (p0 & t0 & Hp & _).
  discriminate.
Qed.

Lemma additional_is_split_by_session_type_witness :
  __init__ Classify train_session empty_store = (built_store, Returned demo_task)
  /\ is_test demo_task = isinstance_Test train_session
  /\ exists pairs,
       data_source Classify (new_self train_session) = inr pairs
       /\ forall i data additional,
            nth_error pairs i = Some (data, additional) ->
            nth_error (names demo_task) i
            = Some (if isinstance_Test train_session then additional else VNone)
            /\ (exists net data' prediction' truth',
                  nth_error (nets demo_task) i = Some net
                  /\ transform Classify (new_self train_session) net data
                       (outputs net)
                       (if isinstance_Test train_session then VNone
                        else additional)
                     = inr (data', prediction', truth')
                  /\ nth_error (truths demo_task) i = Some truth')
            /\ (transform Classify = transform TFTaskBase ->
                nth_error (truths demo_task) i
                = Some (if isinstance_Test train_session then VNone
                        else additional)).
Proof.
  split; [reflexivity|].
  exact (additional_is_split_by_session_type Classify train_session
           empty_store built_store demo_task eq_refl).
Defined.

Lemma secondary_replicas_reuse_witness :
  __init__ Classify train_session empty_store = (built_store, Returned demo_task)
  /\ exists pairs,
       data_source Classify (new_self train_session) = inr pairs
       /\ length (nets demo_task) = length pairs
       /\ forall i data additional,
            nth_error pairs i = Some (data, additional) ->
            nth_error (nets demo_task) i
            = Some (new_TFNet train_session
                      (model (session_config train_session)) data
                      (negb (i =? 0)%nat)).
Proof.
  split; [reflexivity|].
  exact (secondary_replicas_reuse Classify train_session empty_store
           built_store demo_task eq_refl).
Defined.

Lemma names_aligned_in_every_mode_witness :
  __init__ Classify train_session empty_store = (built_store, Returned demo_task)
  /\ length (names demo_task) = length (nets demo_task)
  /\ length (names demo_task) = length (inputs demo_task)
  /\ length (names demo_task) = length (predictions demo_task)
  /\ length (names demo_task) = length (truths demo_task)
  /\ (isinstance_Test train_session = false ->
      Forall (fun name => name = VNone) (names demo_task)).
Proof.
  split; [reflexivity|].
  exact (names_aligned_in_every_mode Classify train_session empty_store
           built_store demo_task eq_refl).
Defined.

Lemma map_yields_one_result_per_replica_witness :
  (length (nets demo_task) = 2 /\ length (predictions demo_task) = 2
   /\ length (truths demo_task) = 2)
  /\ snd (py_list (map demo_task (train Classify demo_task)) empty_store)
     = Returned [VTensor "t0"; VTensor "t1"]
  /\ fst (py_list (map demo_task (train Classify demo_task)) empty_store)
     = with_events [Applied ["/gpu:0"] ["tower_0"] (demo_net "d0" false)
                      (VMapping [("class", VTensor "d0")]) (VTensor "t0");
                    Applied ["/gpu:1"] ["tower_1"] (demo_net "d1" true)
                      (VMapping [("class", VTensor "d1")]) (VTensor "t1")]
         empty_store.
Proof.
  split; [repeat split; reflexivity|].
  destruct (map_yields_one_result_per_replica demo_task
              (train Classify demo_task) 2 empty_store
              eq_refl eq_refl eq_refl) as (Hres & Hall & _).
  split; [exact Hres|].
  exact (proj2 (proj2 (Hall _ Hres))).
Defined.

Lemma map_train_is_the_eager_comprehension_witness :
  (length (nets demo_task) = 2 /\ length (predictions demo_task) = 2
   /\ length (truths demo_task) = 2)
  /\ snd (map_train Classify demo_task empty_store)
     = outcome_of (map_train_spec Classify demo_task 2)
  /\ snd (map_eval Classify demo_task empty_store)
     = outcome_of (map_eval_spec Classify demo_task 2)
  /\ (forall vs, snd (map_train Classify demo_task empty_store) = Returned vs ->
        length vs = 2
        /\ fst (map_train Classify demo_task empty_store)
           = with_events
               (flat_map (applied_in_scope demo_task empty_store) (seq 0 2))
               empty_store)
  /\ (forall vs, snd (map_eval Classify demo_task empty_store) = Returned vs ->
        length vs = 2
        /\ fst (map_eval Classify demo_task empty_store)
           = with_events
               (flat_map (applied_in_scope demo_task empty_store) (seq 0 2))
               empty_store).
Proof.
  split; [repeat split; reflexivity|].
  exact (map_train_is_the_eager_comprehension Classify demo_task 2 empty_store
           eq_refl eq_refl eq_refl).
Defined.

(** C6 as stated fails: the capability error of [generate] is raised by the
    construction of a base task, which never completes. *)
Lemma base_task_raises_at_construction :
  __init__ TFTaskBase single_gpu_session empty_store
  = (empty_store,
     Raised (NotImplementedError
       "Please implement .generate() which produces training/validation samples and the expected truth results."))
  /\ ~ (exists s' task,
          __init__ TFTaskBase single_gpu_session empty_store
          = (s', Returned task)).
Proof.
  split; [reflexivity|].
  intros (s' & task & H). vm_compute in H. discriminate.
Qed.

(** A specialization that supplies the data source but not [eval] is
    constructed without error; the missing capability shows at the first
    use of [eval]. *)
Example missing_eval_shows_at_first_use :
  __init__ Classify train_session empty_store = (built_store, Returned demo_task)
  /\ map_eval Classify demo_task empty_store
     = (with_events
          [Applied ["/gpu:0"] ["tower_0"] (demo_net "d0" false)
             (VMapping [("class", VTensor "d0")]) (VTensor "t0")]
          empty_store,
        Raised (NotImplementedError
          "Please implement .eval() which returns the evaluation metrics.")).
Proof. split; reflexivity. Qed.

(** ** The further properties at the concrete specialization *)

Lemma replicas_built_in_device_order_witness :
  __init__ Classify train_session empty_store = (built_store, Returned demo_task)
  /\ exists pairs,
       data_source Classify (new_self train_session) = inr pairs
       /\ trace built_store
          = trace empty_store
            ++ construction_trace (new_self train_session) empty_store
                 (enumerate pairs).
Proof.
  split; [reflexivity|].
  exact (replicas_built_in_device_order Classify train_session empty_store
           built_store demo_task eq_refl).
Defined.

Lemma completed_construction_leaves_scopes_balanced_witness :
  __init__ Classify train_session empty_store = (built_store, Returned demo_task)
  /\ devices built_store = devices empty_store
  /\ name_scopes built_store = name_scopes empty_store.
Proof.
  split; [reflexivity|].
  exact (completed_construction_leaves_scopes_balanced Classify train_session
           empty_store built_store demo_task eq_refl).
Defined.

Lemma data_source_error_comes_out_unchanged_witness :
  data_source (@TFTaskBase string string) (new_self single_gpu_session)
  = inl (NotImplementedError
      "Please implement .generate() which produces training/validation samples and the expected truth results.")
  /\ __init__ TFTaskBase single_gpu_session built_store
     = (built_store,
        Raised (NotImplementedError
          "Please implement .generate() which produces training/validation samples and the expected truth results.")).
Proof.
  split; [reflexivity|].
  exact (data_source_error_comes_out_unchanged TFTaskBase single_gpu_session
           built_store _ eq_refl).
Defined.

Lemma test_session_needs_an_input_folder_witness :
  (isinstance_Test no_input_session = true
   /\ run_inputs (run (search_path (system (session_config no_input_session))))
      = [])
  /\ __init__ Classify no_input_session empty_store
     = (empty_store, Raised (IndexError "list index out of range")).
Proof.
  split; [split; reflexivity|].
  exact (test_session_needs_an_input_folder Classify no_input_session
           empty_store eq_refl eq_refl).
Defined.

Lemma empty_data_source_gives_empty_task_witness :
  data_source Idle (new_self train_session) = inr []
  /\ __init__ Idle train_session empty_store
     = (empty_store, Returned (new_self train_session))
  /\ map_train Idle (new_self train_session) built_store
     = (built_store, Returned [])
  /\ map_eval Idle (new_self train_session) built_store
     = (built_store, Returned []).
Proof.
  split; [reflexivity|].
  exact (empty_data_source_gives_empty_task Idle train_session empty_store
           built_store eq_refl).
Defined.

Lemma task_attributes_come_from_session_witness :
  __init__ Classify train_session empty_store = (built_store, Returned demo_task)
  /\ session demo_task = train_session
  /\ config demo_task = session_config train_session
  /\ num_gpus demo_task
     = system_num_gpus (system (session_config train_session))
  /\ mode demo_task = session_mode train_session
  /\ Forall (fun net => net_session net = train_session
                        /\ net_model net
                           = model (session_config train_session))
            (nets demo_task).
Proof.
  split; [reflexivity|].
  exact (task_attributes_come_from_session Classify train_session empty_store
           built_store demo_task eq_refl).
Defined.

Lemma default_transform_stores_what_was_yielded_witness :
  __init__ Classify train_session empty_store = (built_store, Returned demo_task)
  /\ exists pairs,
       data_source Classify (new_self train_session) = inr pairs
       /\ names demo_task
          = List.map (fun pair => if isinstance_Test train_session
                                  then snd pair else VNone) pairs
       /\ (transform Classify = transform TFTaskBase ->
           inputs demo_task = List.map fst pairs
           /\ predictions demo_task = List.map outputs (nets demo_task)
           /\ truths demo_task
              = List.map (fun pair => if isinstance_Test train_session
                                      then VNone else snd pair) pairs).
Proof.
  split; [reflexivity|].
  exact (default_transform_stores_what_was_yielded Classify train_session
           empty_store built_store demo_task eq_refl).
Defined.

Lemma test_session_registers_None_as_truth_witness :
  (__init__ Classify test_session empty_store
   = (tested_store, Returned tested_task)
   /\ isinstance_Test test_session = true
   /\ transform Classify = transform TFTaskBase
   /\ nth_error (predictions tested_task) 0
      = Some (VMapping [("class", VTensor "d0")]))
  /\ estimator tested_store
     = estimator empty_store
       ++ registered tested_task (VStr "prediction")
            (VMapping [("class", VTensor "d0")])
       ++ [{| reg_value := VNone; reg_path := VStr "truth";
              reg_history := history_of tested_task |}].
Proof.
  split; [repeat split; reflexivity|].
  exact (test_session_registers_None_as_truth Classify test_session
           empty_store tested_store tested_task
           (VMapping [("class", VTensor "d0")])
           eq_refl eq_refl eq_refl eq_refl).
Defined.

Lemma leaf_estimates_registered_under_their_root_witness :
  (is_Mapping (VTensor "logits" : @value string) = false
   /\ is_Mapping (VNone : @value string) = false)
  /\ _register_estimates demo_task (VTensor "logits") VNone empty_store
     = (with_registrations
          [{| reg_value := VTensor "logits"; reg_path := VStr "prediction";
              reg_history := history_of demo_task |};
           {| reg_value := VNone; reg_path := VStr "truth";
              reg_history := history_of demo_task |}] empty_store,
        Returned tt).
Proof.
  split; [split; reflexivity|].
  exact (leaf_estimates_registered_under_their_root demo_task
           (VTensor "logits") VNone empty_store eq_refl eq_refl).
Defined.

Lemma gpu_context_releases_on_every_path_witness :
  devices (fst (_gpu_context 3 (raise (IndexError "body") : M unit) built_store))
  = devices built_store
  /\ name_scopes
       (fst (_gpu_context 3 (raise (IndexError "body") : M unit) built_store))
     = name_scopes built_store
  /\ snd (_gpu_context 3 (raise (IndexError "body") : M unit) built_store)
     = snd ((raise (IndexError "body") : M unit)
              (enter_gpu_context 3 built_store))
  /\ hd_error (devices (enter_gpu_context 3 built_store)) = Some "/gpu:3"
  /\ hd_error (name_scopes (enter_gpu_context 3 built_store)) = Some "tower_3".
Proof.
  exact (gpu_context_releases_on_every_path 3
           (raise (IndexError "body") : M unit) built_store
           (fun st => conj eq_refl eq_refl)).
Defined.

Lemma map_stops_at_shortest_sequence_witness :
  snd (py_list (map ragged_task (train Classify ragged_task)) empty_store)
  = Returned [VTensor "t0"]
  /\ length [VTensor "t0" : @value string]
     = Nat.min (length (nets ragged_task))
         (Nat.min (length (predictions ragged_task))
            (length (truths ragged_task))).
Proof.
  split; [reflexivity|].
  exact (map_stops_at_shortest_sequence ragged_task
           (train Classify ragged_task) empty_store [VTensor "t0"] eq_refl).
Defined.

Lemma map_stops_at_first_exception_witness :
  (length (nets demo_task) = 2 /\ length (predictions demo_task) = 2
   /\ length (truths demo_task) = 2 /\ 1 < 2
   /\ apply_at demo_task fails_on_reuse 1
      = inl (IndexError "no loss for a secondary replica")
   /\ forall i, i < 1 -> exists v, apply_at demo_task fails_on_reuse i = inr v)
  /\ py_list (map demo_task fails_on_reuse) empty_store
     = (with_events
          (flat_map (applied_in_scope demo_task empty_store) (seq 0 2))
          empty_store,
        Raised (IndexError "no loss for a secondary replica")).
Proof.
  assert (Hbefore : forall i, i < 1 ->
            exists v, apply_at demo_task fails_on_reuse i = inr v).
  { intros [|i] Hi; [eexists; reflexivity|lia]. }
  split; [repeat split; auto|].
  exact (map_stops_at_first_exception demo_task fails_on_reuse 2 1
           (IndexError "no loss for a secondary replica") empty_store
           eq_refl eq_refl eq_refl (le_n 2) eq_refl Hbefore).
Defined.

Lemma unimplemented_train_fails_at_replica_0_witness :
  (length (nets demo_task) = 2 /\ length (predictions demo_task) = 2
   /\ length (truths demo_task) = 2)
  /\ map_train TFTaskBase demo_task empty_store
     = (with_events (applied_in_scope demo_task empty_store 0) empty_store,
        Raised (NotImplementedError
          "Please implement .train() which returns the loss tensor."))
  /\ map_eval TFTaskBase demo_task empty_store
     = (with_events (applied_in_scope demo_task empty_store 0) empty_store,
        Raised (NotImplementedError
          "Please implement .eval() which returns the evaluation metrics.")).
Proof.
  split; [repeat split; reflexivity|].
  exact (unimplemented_train_fails_at_replica_0 demo_task 2 empty_store
           eq_refl eq_refl eq_refl).
Defined.
